(** * Transaction API service: the transfer engine and the account repository

    A shallow embedding of [app/api/transfers.py], [app/api/accounts.py],
    the request schemas of [app/schemas] and the tables of [app/models],
    followed by the properties of the ledger that the handlers guarantee.

    Conventions of the embedding.
    - A [Decimal] is an exact amount, counted as an integer number of one
      fixed smallest unit: hundredths, the scale of the columns
      [Numeric(precision=15, scale=2)], in the scenarios.  Python's [Decimal]
      addition, subtraction and comparisons are exact, so they are those of
      [Z].  The rounding and the range check that a database backend applies
      to a value it stores in such a column are not part of the handlers and
      are not modelled.
    - A Python [str] is a [string] of its UTF-8 bytes; comparing the bytes
      lexicographically orders strings as Python orders them by code point.
    - The surrogate key [id] and [created_at] of both tables are assigned by
      the store and read by no handler below; rows carry the other columns.
    - The SQLAlchemy session is an explicit state: the committed store, the
      identity map of loaded objects, the pending inserts, updates and
      deletes, and a log of the statements issued.  The session is
      configured with [autoflush=False], so pending changes reach the store
      at [commit] only.  Commits of concurrent units of work are a schedule
      of store transformers, one of which is applied before each statement
      of this session; the empty schedule is sequential execution. *)

From Stdlib Require Import ZArith Ascii String List Lia.
From stdpp Require Import gmap strings list fin_maps.

Local Open Scope Z_scope.

(** ** Data model *)

Definition Decimal := Z.

(** [app/models/transaction.py]: [class TransactionStatus(enum.Enum)]. *)
Inductive TransactionStatus := PENDING | COMPLETED | FAILED.

(** [app/models/account.py]: table [accounts]; [account_id] is unique. *)
Module Account.
Record t := mk {
  account_id : string;
  owner_name : string;
  balance : Decimal
}.
Definition with_balance (a : t) (b : Decimal) : t :=
  mk (account_id a) (owner_name a) b.
End Account.

(** [app/models/transaction.py]: table [transactions]; [transaction_id] is
    unique, [from_account_id] and [to_account_id] are non-null foreign keys
    to [accounts.account_id]. *)
Module Transaction.
Record t := mk {
  transaction_id : string;
  from_account_id : string;
  to_account_id : string;
  amount : Decimal;
  status : TransactionStatus;
  description : option string
}.
Definition with_status (x : t) (s : TransactionStatus) : t :=
  mk (transaction_id x) (from_account_id x) (to_account_id x) (amount x) s
     (description x).
End Transaction.

(** [app/schemas/account.py]: [class AccountCreate(BaseModel)]. *)
Module AccountCreate.
Record t := mk {
  account_id : string;
  owner_name : string;
  initial_balance : Decimal
}.
End AccountCreate.

(** [app/schemas/transaction.py]: [class TransferRequest(BaseModel)]. *)
Module TransferRequest.
Record t := mk {
  from_account_id : string;
  to_account_id : string;
  amount : Decimal;
  description : option string;
  transaction_id : option string
}.
End TransferRequest.

(** The two durable relations. [accounts] is keyed by its unique
    [account_id]; [transactions] keeps its rows in insertion order, and the
    uniqueness of [transaction_id] is enforced by the store at insertion. *)
Record DB := mkDB {
  accounts : gmap string Account.t;
  transactions : list Transaction.t
}.

Definition empty_db : DB := mkDB ∅ [].

(** ** Exceptions *)

Inductive Constraint :=
| unique_account_id          (* accounts.account_id, unique=True *)
| unique_transaction_id      (* transactions.transaction_id, unique=True *)
| fk_account                 (* ForeignKey("accounts.account_id") on insert *)
| not_null_account_ref.      (* nullable=False, on deleting a referenced account *)

(** Exceptions other than [HTTPException] that the statements can raise. *)
Inductive Exception :=
| IntegrityError (c : Constraint)
| StaleDataError
| ObjectDeletedError
| KeyError (key : string).

(** The [detail] of an [HTTPException]. The two messages that format a
    [Decimal] or an exception keep their arguments instead of the text. *)
Inductive Detail :=
| Text (msg : string)
| InsufficientFunds (balance required : Decimal)
    (* f"Insufficient funds. Balance: {balance}, Required: {required}" *)
| TransferFailed (e : Exception).
    (* f"Transfer failed: {str(e)}" *)

Inductive Raised :=
| HTTPException (status_code : Z) (detail : Detail)
| Unexpected (e : Exception).

Definition HTTP_400_BAD_REQUEST : Z := 400.
Definition HTTP_404_NOT_FOUND : Z := 404.
Definition HTTP_500_INTERNAL_SERVER_ERROR : Z := 500.

Inductive Result (A : Type) :=
| Return (a : A)
| Raise (e : Raised).
Arguments Return {A} a.
Arguments Raise {A} e.

(** ** The session *)

Inductive Row :=
| AccountRow (a : Account.t)
| TransactionRow (x : Transaction.t).

(** Statements issued to the store and attribute reads of loaded objects,
    in program order. [SelectForUpdate aid locked] tells whether the row
    was found, hence locked; the values of a row are fetched by the
    statement that locks it, and [GetBalance] is the handler reading the
    attribute of the loaded object. A successful commit records the unit of
    work it made durable: the rows inserted, the rows updated and the rows
    deleted. *)
Inductive Event :=
| SelectTransaction (transaction_id : string)
| SelectAccount (account_id : string)
| SelectForUpdate (account_id : string) (locked : bool)
| GetBalance (account_id : string)
| Committed (inserted : list Row) (updated : list (string * Account.t))
            (removed : list string)
| CommitFailed (e : Exception)
| RolledBack.

Record Session := mkSession {
  store : DB;                              (* committed state *)
  others : list (DB → DB);                 (* concurrent commits to come *)
  identity_map : gmap string Account.t;    (* loaded Account objects *)
  dirty : list string;                     (* loaded objects modified *)
  new : list Row;                          (* db.add(...) *)
  deleted : list string;                   (* db.delete(...) *)
  log : list Event
}.

(** [SessionLocal()] on the store [db], with the concurrent schedule [os]. *)
Definition SessionLocal (db : DB) (os : list (DB → DB)) : Session :=
  mkSession db os ∅ [] [] [] [].

Definition M (A : Type) : Type := Session → Result A * Session.

Global Instance M_ret : MRet M := λ A a s, (Return a, s).
Global Instance M_bind : MBind M := λ A B f m s,
  match m s with
  | (Return a, s') => f a s'
  | (Raise e, s') => (Raise e, s')
  end.

Definition raise {A} (e : Raised) : M A := λ s, (Raise e, s).

(** [try: body except e: handler e]. *)
Definition try_except {A} (body : M A) (handler : Raised → M A) : M A := λ s,
  match body s with
  | (Return a, s') => (Return a, s')
  | (Raise e, s') => handler e s'
  end.

(** [for x in xs: acc = body x acc]. *)
Fixpoint for_in {A S} (xs : list A) (body : A → S → M S) (acc : S) : M S :=
  match xs with
  | [] => mret acc
  | x :: xs' => acc' ← body x acc; for_in xs' body acc'
  end.

Definition emit (e : Event) (s : Session) : Session :=
  mkSession (store s) (others s) (identity_map s) (dirty s) (new s)
            (deleted s) (log s ++ [e]).

(** Before a statement reaches the store, the next concurrent commit of the
    schedule, if any, has taken effect. *)
Definition tick (s : Session) : Session :=
  match others s with
  | [] => s
  | f :: os => mkSession (f (store s)) os (identity_map s) (dirty s) (new s)
                         (deleted s) (log s)
  end.

(** The row [a] found under the key [aid] becomes a loaded object. *)
Definition load (aid : string) (a : Account.t) (s : Session) : Session :=
  mkSession (store s) (others s) (<[aid := a]> (identity_map s))
            (dirty s) (new s) (deleted s) (log s).

(** [db.query(Transaction).filter(Transaction.transaction_id == tid).first()] *)
Definition query_transaction_first (tid : string) : M (option Transaction.t) :=
  λ s,
  let s := emit (SelectTransaction tid) (tick s) in
  (Return (find (λ x, bool_decide (Transaction.transaction_id x = tid))
                (transactions (store s))), s).

(** [db.query(Account).filter(Account.account_id == aid).first()]. A loaded
    object is denoted by its key in the identity map. *)
Definition query_account_first (aid : string) : M (option string) := λ s,
  let s := emit (SelectAccount aid) (tick s) in
  match accounts (store s) !! aid with
  | Some a => (Return (Some aid), load aid a s)
  | None => (Return None, s)
  end.

(** [db.query(Account).filter(...).with_for_update().first()]: when the row
    exists it is locked until the unit of work ends. *)
Definition query_account_for_update_first (aid : string) : M (option string) :=
  λ s,
  let s := tick s in
  match accounts (store s) !! aid with
  | Some a => (Return (Some aid), load aid a (emit (SelectForUpdate aid true) s))
  | None => (Return None, emit (SelectForUpdate aid false) s)
  end.

(** [obj.balance]. After a commit the loaded objects are expired
    ([expire_on_commit] is left at its default), and the attribute is read
    from the store again. *)
Definition get_balance (obj : string) : M Decimal := λ s,
  let s := emit (GetBalance obj) s in
  match identity_map s !! obj with
  | Some a => (Return (Account.balance a), s)
  | None =>
      let s := emit (SelectAccount obj) (tick s) in
      match accounts (store s) !! obj with
      | Some a => (Return (Account.balance a), load obj a s)
      | None => (Raise (Unexpected ObjectDeletedError), s)
      end
  end.

(** [obj.balance = b] *)
Definition set_balance (obj : string) (b : Decimal) : M unit := λ s,
  match identity_map s !! obj with
  | Some a =>
      (Return tt,
       mkSession (store s) (others s)
                 (<[obj := Account.with_balance a b]> (identity_map s))
                 (dirty s ++ [obj]) (new s) (deleted s) (log s))
  | None => (Raise (Unexpected ObjectDeletedError), s)
  end.

(** [db.add(row)] *)
Definition add (r : Row) : M unit := λ s,
  (Return tt,
   mkSession (store s) (others s) (identity_map s) (dirty s) (new s ++ [r])
             (deleted s) (log s)).

(** [db.delete(obj)] *)
Definition delete_ (obj : string) : M unit := λ s,
  (Return tt,
   mkSession (store s) (others s) (identity_map s) (dirty s) (new s)
             (deleted s ++ [obj]) (log s)).

(** [d[k]] on a dict. *)
Definition getitem {V} (d : gmap string V) (k : string) : M V := λ s,
  match d !! k with
  | Some v => (Return v, s)
  | None => (Raise (Unexpected (KeyError k)), s)
  end.

Definition dirty_accounts (s : Session) : list (string * Account.t) :=
  omap (λ obj, pair obj <$> identity_map s !! obj) (dirty s).

(** *** The store's side of a flush *)

Definition references (aid : string) (x : Transaction.t) : bool :=
  bool_decide (Transaction.from_account_id x = aid)
  || bool_decide (Transaction.to_account_id x = aid).

Definition has_transaction (tid : string) (db : DB) : bool :=
  existsb (λ x, bool_decide (Transaction.transaction_id x = tid))
          (transactions db).

Definition insert_account (a : Account.t) (db : DB) : Exception + DB :=
  match accounts db !! Account.account_id a with
  | Some _ => inl (IntegrityError unique_account_id)
  | None => inr (mkDB (<[Account.account_id a := a]> (accounts db))
                      (transactions db))
  end.

Definition update_account (row : string * Account.t) (db : DB)
  : Exception + DB :=
  let '(aid, a) := row in
  match accounts db !! aid with
  | Some _ => inr (mkDB (<[aid := a]> (accounts db)) (transactions db))
  | None => inl StaleDataError
  end.

Definition insert_transaction (x : Transaction.t) (db : DB) : Exception + DB :=
  if has_transaction (Transaction.transaction_id x) db
  then inl (IntegrityError unique_transaction_id)
  else
    match accounts db !! Transaction.from_account_id x,
          accounts db !! Transaction.to_account_id x with
    | Some _, Some _ => inr (mkDB (accounts db) (transactions db ++ [x]))
    | _, _ => inl (IntegrityError fk_account)
    end.

(** Deleting an account first detaches the transactions that reference it
    (the relationships of [Account] have no delete cascade), which the
    non-null foreign keys of [transactions] refuse. *)
Definition delete_account_row (aid : string) (db : DB) : Exception + DB :=
  if existsb (references aid) (transactions db)
  then inl (IntegrityError not_null_account_ref)
  else inr (mkDB (delete aid (accounts db)) (transactions db)).

Fixpoint apply_all {A} (f : A → DB → Exception + DB) (xs : list A) (db : DB)
  : Exception + DB :=
  match xs with
  | [] => inr db
  | x :: xs' =>
      match f x db with
      | inl e => inl e
      | inr db' => apply_all f xs' db'
      end
  end.

Definition new_accounts (rs : list Row) : list Account.t :=
  omap (λ r, match r with AccountRow a => Some a | _ => None end) rs.

Definition new_transactions (rs : list Row) : list Transaction.t :=
  omap (λ r, match r with TransactionRow x => Some x | _ => None end) rs.

(** The unit of work: account rows are written before the transaction rows
    that reference them, deletions come last. *)
Definition flush (s : Session) : Exception + DB :=
  match apply_all insert_account (new_accounts (new s)) (store s) with
  | inl e => inl e
  | inr db1 =>
    match apply_all update_account (dirty_accounts s) db1 with
    | inl e => inl e
    | inr db2 =>
      match apply_all insert_transaction (new_transactions (new s)) db2 with
      | inl e => inl e
      | inr db3 => apply_all delete_account_row (deleted s) db3
      end
    end
  end.

(** [db.commit()]: all pending changes reach the store, or none does. On
    success the loaded objects are expired. *)
Definition commit : M unit := λ s,
  let s := tick s in
  match flush s with
  | inr db' =>
      (Return tt,
       mkSession db' (others s) ∅ [] [] []
                 (log s ++ [Committed (new s) (dirty_accounts s) (deleted s)]))
  | inl e => (Raise (Unexpected e), emit (CommitFailed e) s)
  end.

(** [db.rollback()]: pending changes are dropped, loaded objects expired. *)
Definition rollback : M unit := λ s,
  (Return tt,
   mkSession (store s) (others s) ∅ [] [] [] (log s ++ [RolledBack])).

(** [db.refresh(obj)] of a transaction just committed. *)
Definition refresh_transaction (x : Transaction.t) : M Transaction.t := λ s,
  let s := emit (SelectTransaction (Transaction.transaction_id x)) (tick s) in
  match find (λ y, bool_decide (Transaction.transaction_id y
                                = Transaction.transaction_id x))
             (transactions (store s)) with
  | Some y => (Return y, s)
  | None => (Raise (Unexpected ObjectDeletedError), s)
  end.

(** [db.refresh(obj)] of an account just committed. *)
Definition refresh_account (a : Account.t) : M Account.t := λ s,
  let s := emit (SelectAccount (Account.account_id a)) (tick s) in
  match accounts (store s) !! Account.account_id a with
  | Some a' => (Return a', load (Account.account_id a) a' s)
  | None => (Raise (Unexpected ObjectDeletedError), s)
  end.

(** ** Python built-ins used by the handlers *)

(** [sorted(xs)] on strings: a stable sort by [<]. *)
Fixpoint insert_sorted (x : string) (l : list string) : list string :=
  match l with
  | [] => [x]
  | y :: l' => if String.ltb y x then y :: insert_sorted x l' else x :: l
  end.

Definition sorted (l : list string) : list string :=
  foldr insert_sorted [] l.

(** [x or y] where [x] is an optional string: [None] and the empty string
    are falsy. *)
Definition or_else (x : option string) (y : string) : string :=
  match x with
  | Some (String c r) => String c r
  | _ => y
  end.

(** ** Request schemas: validation before a handler runs *)

(** A byte [10xxxxxx] continues a character of a UTF-8 string. *)
Definition is_continuation (c : ascii) : bool :=
  match c with
  | Ascii _ _ _ _ _ _ b6 b7 => b7 && negb b6
  end.

(** [len(s)]: the number of characters of a Python string. *)
Fixpoint len (s : string) : nat :=
  match s with
  | EmptyString => 0
  | String c r => (if is_continuation c then 0 else 1) + len r
  end.

Definition length_between (lo hi : nat) (s : string) : bool :=
  (lo <=? len s)%nat && (len s <=? hi)%nat.

(** [AccountCreate]: [account_id] of 1 to 50 characters, [owner_name] of 1
    to 100, [initial_balance] with [default=Decimal("0.00")] and [ge=0].
    [None] is the rejection of the body (status 422). *)
Definition AccountCreate_validate
    (account_id owner_name : string) (initial_balance : option Decimal)
  : option AccountCreate.t :=
  let initial_balance := default 0 initial_balance in
  if length_between 1 50 account_id
     && length_between 1 100 owner_name
     && (0 <=? initial_balance)
  then Some (AccountCreate.mk account_id owner_name initial_balance)
  else None.

Definition optional_max_length (n : nat) (s : option string) : bool :=
  match s with
  | None => true
  | Some s => (len s <=? n)%nat
  end.

(** [TransferRequest]: account ids of 1 to 50 characters, [amount] with
    [gt=0], [description] of at most 500 characters and [transaction_id] of
    at most 100 when present. *)
Definition TransferRequest_validate (body : TransferRequest.t)
  : option TransferRequest.t :=
  if length_between 1 50 (TransferRequest.from_account_id body)
     && length_between 1 50 (TransferRequest.to_account_id body)
     && (0 <? TransferRequest.amount body)
     && optional_max_length 500 (TransferRequest.description body)
     && optional_max_length 100 (TransferRequest.transaction_id body)
  then Some body
  else None.

(** ** [app/api/accounts.py] *)

(** [POST /accounts/] *)
Definition create_account (account_data : AccountCreate.t) : M Account.t :=
  (* Check if account already exists *)
  existing_account ←
    query_account_first (AccountCreate.account_id account_data);
  if existing_account is Some _ then
    raise (HTTPException HTTP_400_BAD_REQUEST
             (Text ("Account " +:+ AccountCreate.account_id account_data
                    +:+ " already exists")))
  else
  (* Validate initial balance *)
  if AccountCreate.initial_balance account_data <? 0 then
    raise (HTTPException HTTP_400_BAD_REQUEST
             (Text "Initial balance cannot be negative"))
  else
  (* Create new account *)
  let new_account :=
    Account.mk (AccountCreate.account_id account_data)
               (AccountCreate.owner_name account_data)
               (AccountCreate.initial_balance account_data) in
  add (AccountRow new_account);;
  commit;;
  refresh_account new_account.

(** The response model reads the attributes of the loaded object. *)
Definition from_attributes (obj : string) : M Account.t := λ s,
  match identity_map s !! obj with
  | Some a => (Return a, s)
  | None => (Raise (Unexpected ObjectDeletedError), s)
  end.

(** [GET /accounts/{account_id}] *)
Definition get_account (account_id : string) : M Account.t :=
  account ← query_account_first account_id;
  match account with
  | None =>
      raise (HTTPException HTTP_404_NOT_FOUND
               (Text ("Account " +:+ account_id +:+ " not found")))
  | Some account => from_attributes account
  end.

(** [DELETE /accounts/{account_id}] *)
Definition delete_account (account_id : string) : M unit :=
  account ← query_account_first account_id;
  match account with
  | None =>
      raise (HTTPException HTTP_404_NOT_FOUND
               (Text ("Account " +:+ account_id +:+ " not found")))
  | Some account =>
      balance ← get_balance account;
      if negb (balance =? 0) then
        raise (HTTPException HTTP_400_BAD_REQUEST
                 (Text "Cannot delete account with non-zero balance"))
      else
        delete_ account;;
        commit
  end.

(** ** [app/api/transfers.py] *)

Definition Transaction_of (transfer_data : TransferRequest.t)
    (transaction_id : string) (status : TransactionStatus) : Transaction.t :=
  Transaction.mk transaction_id
                 (TransferRequest.from_account_id transfer_data)
                 (TransferRequest.to_account_id transfer_data)
                 (TransferRequest.amount transfer_data)
                 status
                 (TransferRequest.description transfer_data).

(** [POST /transfers/]; [uuid4] is the value of [str(uuid.uuid4())]. *)
Definition create_transfer (uuid4 : string) (transfer_data : TransferRequest.t)
  : M Transaction.t :=
  let from_account_id := TransferRequest.from_account_id transfer_data in
  let to_account_id := TransferRequest.to_account_id transfer_data in
  let amount := TransferRequest.amount transfer_data in
  (* Validate accounts are different *)
  if bool_decide (from_account_id = to_account_id) then
    raise (HTTPException HTTP_400_BAD_REQUEST
             (Text "Cannot transfer to the same account"))
  else
  (* Generate transaction ID if not provided *)
  let transaction_id :=
    or_else (TransferRequest.transaction_id transfer_data) uuid4 in
  (* Check for duplicate transaction ID (idempotency) *)
  existing_transaction ← query_transaction_first transaction_id;
  if existing_transaction is Some _ then
    raise (HTTPException HTTP_400_BAD_REQUEST
             (Text ("Transaction " +:+ transaction_id +:+ " already exists")))
  else
  try_except
    ((* Lock accounts in consistent order to prevent deadlocks *)
     let account_ids := sorted [from_account_id; to_account_id] in
     locked_accounts ←
       for_in account_ids
         (λ account_id (locked_accounts : gmap string string),
            account ← query_account_for_update_first account_id;
            match account with
            | None =>
                raise (HTTPException HTTP_404_NOT_FOUND
                         (Text ("Account " +:+ account_id +:+ " not found")))
            | Some account => mret (<[account_id := account]> locked_accounts)
            end)
         ∅;
     from_account ← getitem locked_accounts from_account_id;
     to_account ← getitem locked_accounts to_account_id;
     (* Check sufficient funds *)
     balance ← get_balance from_account;
     if balance <? amount then
       (* Create failed transaction record *)
       let failed_transaction :=
         Transaction_of transfer_data transaction_id FAILED in
       add (TransactionRow failed_transaction);;
       commit;;
       balance ← get_balance from_account;
       raise (HTTPException HTTP_400_BAD_REQUEST
                (InsufficientFunds balance amount))
     else
       (* Create transaction record *)
       let transaction :=
         Transaction_of transfer_data transaction_id PENDING in
       (* Execute transfer *)
       balance ← get_balance from_account;
       set_balance from_account (balance - amount);;
       balance ← get_balance to_account;
       set_balance to_account (balance + amount);;
       (* Mark transaction as completed *)
       let transaction := Transaction.with_status transaction COMPLETED in
       (* Save all changes atomically *)
       add (TransactionRow transaction);;
       commit;;
       refresh_transaction transaction)
    (λ e,
       match e with
       | HTTPException _ _ =>
           (* Re-raise HTTP exceptions (expected errors) *)
           rollback;;
           raise e
       | Unexpected e =>
           (* Rollback on unexpected errors *)
           rollback;;
           (* Try to create failed transaction record *)
           try_except
             (let failed_transaction :=
                Transaction_of transfer_data transaction_id FAILED in
              add (TransactionRow failed_transaction);;
              commit)
             (λ _, mret tt);;
           raise (HTTPException HTTP_500_INTERNAL_SERVER_ERROR
                    (TransferFailed e))
       end).

(** ** The public interface *)

(** A handler runs on a session of its own ([Depends(get_db)]), which is
    closed when the handler ends; what stays is the store. *)
Definition call {A} (handler : M A) (db : DB) (os : list (DB → DB))
  : Result A * DB * list Event :=
  let '(r, s) := handler (SessionLocal db os) in (r, store s, log s).

Inductive Request :=
| POST_accounts (account_id owner_name : string)
                (initial_balance : option Decimal)
| GET_account (account_id : string)
| DELETE_account (account_id : string)
| POST_transfers (body : TransferRequest.t) (uuid4 : string).

Inductive Response :=
| AccountResponse (a : Account.t)
| TransactionResponse (x : Transaction.t)
| NoContent
| RequestValidationError
| Failure (e : Raised).

Definition respond {A} (f : A → Response) (r : Result A) : Response :=
  match r with
  | Return a => f a
  | Raise e => Failure e
  end.

(** One request served with no concurrent unit of work. *)
Definition serve (q : Request) (db : DB) : Response * DB :=
  match q with
  | POST_accounts account_id owner_name initial_balance =>
      match AccountCreate_validate account_id owner_name initial_balance with
      | None => (RequestValidationError, db)
      | Some account_data =>
          let '(r, db', _) := call (create_account account_data) db [] in
          (respond AccountResponse r, db')
      end
  | GET_account account_id =>
      let '(r, db', _) := call (get_account account_id) db [] in
      (respond AccountResponse r, db')
  | DELETE_account account_id =>
      let '(r, db', _) := call (delete_account account_id) db [] in
      (respond (λ _, NoContent) r, db')
  | POST_transfers body uuid4 =>
      match TransferRequest_validate body with
      | None => (RequestValidationError, db)
      | Some transfer_data =>
          let '(r, db', _) := call (create_transfer uuid4 transfer_data) db [] in
          (respond TransactionResponse r, db')
      end
  end.

(** The store after a sequence of requests. *)
Definition serve_all (qs : list Request) (db : DB) : DB :=
  foldl (λ db q, (serve q db).2) db qs.

(** ** Observations on the store and on the log *)


Definition non_negative (db : DB) : Prop :=
  ∀ aid a, accounts db !! aid = Some a → 0 ≤ Account.balance a.

(** A terminal status: [completed] or [failed]. *)
Definition terminal (x : Transaction.t) : Prop :=
  Transaction.status x = COMPLETED ∨ Transaction.status x = FAILED.

Definition terminal_row (r : Row) : Prop :=
  match r with
  | TransactionRow x => terminal x
  | AccountRow _ => True
  end.

(** The number of stored records with the given [transaction_id]. *)
Definition count_transactions (tid : string) (db : DB) : nat :=
  length (filter (λ x, Transaction.transaction_id x = tid) (transactions db)).

(** No stored transaction has the account as source or destination. *)
Definition unreferenced (aid : string) (db : DB) : Prop :=
  existsb (references aid) (transactions db) = false.

(** The accounts whose rows the unit of work has locked, in order. *)
Definition locks_of (l : list Event) : list string :=
  omap (λ e, match e with
             | SelectForUpdate aid true => Some aid
             | _ => None
             end) l.

(** The commits that succeeded, in order. *)
Definition commits_of (l : list Event) : list Event :=
  omap (λ e, match e with Committed _ _ _ => Some e | _ => None end) l.


(** What one request served sequentially can do to the store. *)
Inductive store_step (db : DB) : DB → Prop :=
| step_none : store_step db db
| step_account_created (a : Account.t) :
    accounts db !! Account.account_id a = None →
    0 ≤ Account.balance a →
    store_step db (mkDB (<[Account.account_id a := a]> (accounts db))
                        (transactions db))
| step_account_deleted (aid : string) (a : Account.t) :
    accounts db !! aid = Some a →
    Account.balance a = 0 →
    unreferenced aid db →
    store_step db (mkDB (delete aid (accounts db)) (transactions db))
| step_transfer_failed (x : Transaction.t) :
    Transaction.status x = FAILED →
    has_transaction (Transaction.transaction_id x) db = false →
    store_step db (mkDB (accounts db) (transactions db ++ [x]))
| step_transfer_completed (x : Transaction.t) (a_from a_to : Account.t) :
    Transaction.status x = COMPLETED →
    has_transaction (Transaction.transaction_id x) db = false →
    Transaction.from_account_id x ≠ Transaction.to_account_id x →
    accounts db !! Transaction.from_account_id x = Some a_from →
    accounts db !! Transaction.to_account_id x = Some a_to →
    0 < Transaction.amount x ≤ Account.balance a_from →
    store_step db
      (mkDB (<[Transaction.to_account_id x :=
                 Account.with_balance a_to
                   (Account.balance a_to + Transaction.amount x)]>
               (<[Transaction.from_account_id x :=
                    Account.with_balance a_from
                      (Account.balance a_from - Transaction.amount x)]>
                  (accounts db)))
            (transactions db ++ [x])).

(** ** Scenarios *)

(** Two accounts, A with 1000.00 and B with 500.00, and no transaction. *)
Definition two_accounts : DB :=
  mkDB (<["A" := Account.mk "A" "Alice" 100000]>
          (<["B" := Account.mk "B" "Bob" 50000]> ∅)) [].

(** A(100.00), B(0.00) and no transaction. *)
Definition poor_and_empty : DB :=
  mkDB (<["A" := Account.mk "A" "Alice" 10000]>
          (<["B" := Account.mk "B" "Bob" 0]> ∅)) [].

(** [two_accounts] after a completed transfer of 250.00 from A to B that
    was recorded under the transaction id T1. *)
Definition after_T1 : DB :=
  mkDB (<["A" := Account.mk "A" "Alice" 75000]>
          (<["B" := Account.mk "B" "Bob" 75000]> ∅))
       [Transaction.mk "T1" "A" "B" 25000 COMPLETED None].

Definition transfer (from to : string) (amount : Decimal)
    (transaction_id : string) : TransferRequest.t :=
  TransferRequest.mk from to amount None (Some transaction_id).

(** A has 0.00 and tried to send 1.00 to B: the attempt is on record. *)
Definition history : list Request :=
  [POST_accounts "A" "Alice" None;
   POST_accounts "B" "Bob" (Some 50000);
   POST_transfers (transfer "A" "B" 100 "T1") "uuid"].

Definition after_history : DB := serve_all history empty_db.

(** The whole unit of work of a concurrent request that carries the same
    transaction id T1, as one commit. *)
Definition winner (db : DB) : DB :=
  (call (create_transfer "uuid" (transfer "A" "B" 25000 "T1")) db []).1.2.

(** ** The read endpoints *)

(** [app/schemas/account.py]: [class AccountBalance(BaseModel)]. *)
Module AccountBalance.
Record t := mk {
  account_id : string;
  balance : Decimal
}.
End AccountBalance.

(** [query.order_by(Transaction.created_at.desc()).offset(skip).limit(limit)
    .all()] on the rows that satisfy [keep].  [created_at] is set when a row
    is inserted, and the rows of [transactions] are in insertion order, so
    the most recent row is the last one.  [skip] and [limit] are natural
    numbers; the log, which keeps the statements on single rows, has no entry
    for this one. *)
Definition query_transactions_all (keep : Transaction.t → bool)
    (skip limit : nat) : M (list Transaction.t) := λ s,
  let s := tick s in
  (Return (take limit
             (drop skip
                (reverse (List.filter keep (transactions (store s)))))), s).

(** [db.query(Account).offset(skip).limit(limit).all()].  The query has no
    [order_by]: the rows come in the order in which the store scans them,
    for which the order of the map stands. *)
Definition query_accounts_all (skip limit : nat) : M (list Account.t) := λ s,
  let s := tick s in
  (Return (take limit (drop skip (map_to_list (accounts (store s))).*2)), s).

(** [GET /accounts/{account_id}/balance] *)
Definition get_account_balance (account_id : string) : M AccountBalance.t :=
  account ← query_account_first account_id;
  match account with
  | None =>
      raise (HTTPException HTTP_404_NOT_FOUND
               (Text ("Account " +:+ account_id +:+ " not found")))
  | Some account =>
      a ← from_attributes account;
      balance ← get_balance account;
      mret (AccountBalance.mk (Account.account_id a) balance)
  end.

(** [GET /accounts/] *)
Definition list_accounts (skip limit : nat) : M (list Account.t) :=
  query_accounts_all skip limit.

(** [GET /transfers/{transaction_id}] *)
Definition get_transfer (transaction_id : string) : M Transaction.t :=
  transaction ← query_transaction_first transaction_id;
  match transaction with
  | None =>
      raise (HTTPException HTTP_404_NOT_FOUND
               (Text ("Transaction " +:+ transaction_id +:+ " not found")))
  | Some transaction => mret transaction
  end.

(** [GET /transfers/account/{account_id}] *)
Definition get_account_transfers (account_id : string) (skip limit : nat)
  : M (list Transaction.t) :=
  (* Check if account exists *)
  account ← query_account_first account_id;
  match account with
  | None =>
      raise (HTTPException HTTP_404_NOT_FOUND
               (Text ("Account " +:+ account_id +:+ " not found")))
  | Some _ =>
      (* Get transactions where account is sender or receiver *)
      query_transactions_all (references account_id) skip limit
  end.

(** [GET /transfers/] *)
Definition list_transfers (skip limit : nat) : M (list Transaction.t) :=
  query_transactions_all (λ _, true) skip limit.

(** ** Invariants of the stores that the interface reaches *)

(** No two stored records have the same [transaction_id]. *)
Definition unique_transaction_ids (db : DB) : Prop :=
  NoDup (Transaction.transaction_id <$> transactions db).

(** Every stored record has its two accounts in the store. *)
Definition referential (db : DB) : Prop :=
  ∀ x, x ∈ transactions db →
       is_Some (accounts db !! Transaction.from_account_id x)
       ∧ is_Some (accounts db !! Transaction.to_account_id x).

(** Every account row is stored under its own [account_id]. *)
Definition keyed (db : DB) : Prop :=
  ∀ aid a, accounts db !! aid = Some a → Account.account_id a = aid.

(** What the schemas and the handlers guarantee of a stored record. *)
Definition well_formed_record (x : Transaction.t) : Prop :=
  Transaction.from_account_id x ≠ Transaction.to_account_id x
  ∧ 0 < Transaction.amount x
  ∧ terminal x.



(** One request served sequentially, with what the handlers checked. *)
Inductive request_step (db : DB) : DB → Prop :=
| request_none : request_step db db
| request_account_created (a : Account.t) :
    accounts db !! Account.account_id a = None →
    0 ≤ Account.balance a →
    request_step db (mkDB (<[Account.account_id a := a]> (accounts db))
                          (transactions db))
| request_account_deleted (aid : string) (a : Account.t) :
    accounts db !! aid = Some a →
    Account.balance a = 0 →
    unreferenced aid db →
    request_step db (mkDB (delete aid (accounts db)) (transactions db))
| request_transfer_failed (x : Transaction.t) (a_from a_to : Account.t) :
    Transaction.status x = FAILED →
    has_transaction (Transaction.transaction_id x) db = false →
    Transaction.from_account_id x ≠ Transaction.to_account_id x →
    accounts db !! Transaction.from_account_id x = Some a_from →
    accounts db !! Transaction.to_account_id x = Some a_to →
    0 < Transaction.amount x →
    Account.balance a_from < Transaction.amount x →
    request_step db (mkDB (accounts db) (transactions db ++ [x]))
| request_transfer_completed (x : Transaction.t) (a_from a_to : Account.t) :
    Transaction.status x = COMPLETED →
    has_transaction (Transaction.transaction_id x) db = false →
    Transaction.from_account_id x ≠ Transaction.to_account_id x →
    accounts db !! Transaction.from_account_id x = Some a_from →
    accounts db !! Transaction.to_account_id x = Some a_to →
    0 < Transaction.amount x ≤ Account.balance a_from →
    request_step db
      (mkDB (<[Transaction.to_account_id x :=
                 Account.with_balance a_to
                   (Account.balance a_to + Transaction.amount x)]>
               (<[Transaction.from_account_id x :=
                    Account.with_balance a_from
                      (Account.balance a_from - Transaction.amount x)]>
                  (accounts db)))
            (transactions db ++ [x])).

(** Ascending in the order of [<=] on strings. *)
Fixpoint ascending (l : list string) : bool :=
  match l with
  | x :: (y :: _) as l' => String.leb x y && ascending l'
  | _ => true
  end.

(** * Reasoning about sessions *)

Local Arguments sorted : simpl never.

Lemma find_None_has_transaction tid db :
  has_transaction tid db = false →
  find (λ x, bool_decide (Transaction.transaction_id x = tid))
       (transactions db) = None.
Proof.
  unfold has_transaction.
  induction (transactions db) as [|x l IH]; simpl; [done|].
  destruct (bool_decide _); simpl; [done|]. exact IH.
Qed.

Lemma find_Some_has_transaction tid db :
  has_transaction tid db = true →
  is_Some (find (λ x, bool_decide (Transaction.transaction_id x = tid))
                (transactions db)).
Proof.
  unfold has_transaction.
  induction (transactions db) as [|x l IH]; simpl; [done|].
  destruct (bool_decide _); simpl; [by eexists|]. exact IH.
Qed.

Lemma find_app_fresh tid l x :
  existsb (λ x, bool_decide (Transaction.transaction_id x = tid)) l = false →
  Transaction.transaction_id x = tid →
  find (λ y, bool_decide (Transaction.transaction_id y = tid)) (l ++ [x])
  = Some x.
Proof.
  intros Hl Hx. induction l as [|y l IH]; simpl in *.
  - by rewrite bool_decide_eq_true_2.
  - destruct (bool_decide _); simpl in *; [done|]. by apply IH.
Qed.

Lemma sorted_pair a b :
  sorted [a; b] = if String.ltb b a then [b; a] else [a; b].
Proof. reflexivity. Qed.

(** What each statement does on a session with no concurrent commit left. *)
Section sequential.
Variables (db : DB) (im : gmap string Account.t) (d : list string)
  (n : list Row) (del : list string) (lg : list Event).

Lemma run_query_transaction_first tid :
  query_transaction_first tid (mkSession db [] im d n del lg) =
  (Return (find (λ x, bool_decide (Transaction.transaction_id x = tid))
                (transactions db)),
   mkSession db [] im d n del (lg ++ [SelectTransaction tid])).
Proof. reflexivity. Qed.

Lemma run_query_account_first aid :
  query_account_first aid (mkSession db [] im d n del lg) =
  match accounts db !! aid with
  | Some a => (Return (Some aid),
               mkSession db [] (<[aid:=a]> im) d n del
                         (lg ++ [SelectAccount aid]))
  | None => (Return None,
             mkSession db [] im d n del (lg ++ [SelectAccount aid]))
  end.
Proof. reflexivity. Qed.

Lemma run_query_account_for_update_first aid :
  query_account_for_update_first aid (mkSession db [] im d n del lg) =
  match accounts db !! aid with
  | Some a => (Return (Some aid),
               mkSession db [] (<[aid:=a]> im) d n del
                         (lg ++ [SelectForUpdate aid true]))
  | None => (Return None,
             mkSession db [] im d n del (lg ++ [SelectForUpdate aid false]))
  end.
Proof. reflexivity. Qed.

Lemma run_get_balance obj :
  get_balance obj (mkSession db [] im d n del lg) =
  match im !! obj with
  | Some a => (Return (Account.balance a),
               mkSession db [] im d n del (lg ++ [GetBalance obj]))
  | None =>
      match accounts db !! obj with
      | Some a => (Return (Account.balance a),
                   mkSession db [] (<[obj:=a]> im) d n del
                             ((lg ++ [GetBalance obj]) ++ [SelectAccount obj]))
      | None => (Raise (Unexpected ObjectDeletedError),
                 mkSession db [] im d n del
                           ((lg ++ [GetBalance obj]) ++ [SelectAccount obj]))
      end
  end.
Proof. reflexivity. Qed.

Lemma run_set_balance obj b :
  set_balance obj b (mkSession db [] im d n del lg) =
  match im !! obj with
  | Some a => (Return tt,
               mkSession db [] (<[obj := Account.with_balance a b]> im)
                         (d ++ [obj]) n del lg)
  | None => (Raise (Unexpected ObjectDeletedError),
             mkSession db [] im d n del lg)
  end.
Proof. reflexivity. Qed.

Lemma run_add r :
  add r (mkSession db [] im d n del lg)
  = (Return tt, mkSession db [] im d (n ++ [r]) del lg).
Proof. reflexivity. Qed.

Lemma run_delete obj :
  delete_ obj (mkSession db [] im d n del lg)
  = (Return tt, mkSession db [] im d n (del ++ [obj]) lg).
Proof. reflexivity. Qed.

Lemma run_commit :
  commit (mkSession db [] im d n del lg) =
  match flush (mkSession db [] im d n del lg) with
  | inr db' =>
      (Return tt,
       mkSession db' [] ∅ [] [] []
         (lg ++ [Committed n (dirty_accounts (mkSession db [] im d n del lg))
                           del]))
  | inl e => (Raise (Unexpected e),
              mkSession db [] im d n del (lg ++ [CommitFailed e]))
  end.
Proof. reflexivity. Qed.

Lemma run_rollback :
  rollback (mkSession db [] im d n del lg)
  = (Return tt, mkSession db [] ∅ [] [] [] (lg ++ [RolledBack])).
Proof. reflexivity. Qed.

Lemma run_refresh_transaction x :
  refresh_transaction x (mkSession db [] im d n del lg) =
  match find (λ y, bool_decide (Transaction.transaction_id y
                                = Transaction.transaction_id x))
             (transactions db) with
  | Some y =>
      (Return y,
       mkSession db [] im d n del
         (lg ++ [SelectTransaction (Transaction.transaction_id x)]))
  | None =>
      (Raise (Unexpected ObjectDeletedError),
       mkSession db [] im d n del
         (lg ++ [SelectTransaction (Transaction.transaction_id x)]))
  end.
Proof. reflexivity. Qed.

Lemma run_refresh_account a :
  refresh_account a (mkSession db [] im d n del lg) =
  match accounts db !! Account.account_id a with
  | Some a' =>
      (Return a',
       mkSession db [] (<[Account.account_id a := a']> im) d n del
         (lg ++ [SelectAccount (Account.account_id a)]))
  | None =>
      (Raise (Unexpected ObjectDeletedError),
       mkSession db [] im d n del
         (lg ++ [SelectAccount (Account.account_id a)]))
  end.
Proof. reflexivity. Qed.

Lemma run_from_attributes obj :
  from_attributes obj (mkSession db [] im d n del lg) =
  match im !! obj with
  | Some a => (Return a, mkSession db [] im d n del lg)
  | None => (Raise (Unexpected ObjectDeletedError),
             mkSession db [] im d n del lg)
  end.
Proof. reflexivity. Qed.

End sequential.

Local Arguments query_transaction_first : simpl never.
Local Arguments query_account_first : simpl never.
Local Arguments query_account_for_update_first : simpl never.
Local Arguments get_balance : simpl never.
Local Arguments set_balance : simpl never.
Local Arguments add : simpl never.
Local Arguments delete_ : simpl never.
Local Arguments commit : simpl never.
Local Arguments rollback : simpl never.
Local Arguments refresh_transaction : simpl never.
Local Arguments refresh_account : simpl never.
Local Arguments from_attributes : simpl never.
Local Arguments flush : simpl never.

(** Symbolic execution of a handler: the binds are exposed, each statement
    whose session is known is replaced by its result, and the lookups in the
    identity map are resolved. *)
Ltac monad :=
  unfold mbind, M_bind, mret, M_ret, try_except, raise, getitem;
  cbn [for_in store others identity_map dirty new deleted log app
       accounts transactions
       Transaction.with_status Transaction.transaction_id
       Transaction.from_account_id Transaction.to_account_id
       Transaction.amount Transaction.status Transaction.description
       TransferRequest.from_account_id TransferRequest.to_account_id
       TransferRequest.amount TransferRequest.description
       TransferRequest.transaction_id
       AccountCreate.account_id AccountCreate.owner_name
       AccountCreate.initial_balance
       Account.account_id Account.owner_name Account.balance].

Ltac run :=
  repeat (progress (
    rewrite ?run_query_transaction_first, ?run_query_account_first,
      ?run_query_account_for_update_first, ?run_get_balance,
      ?run_set_balance, ?run_add, ?run_delete, ?run_commit, ?run_rollback,
      ?run_refresh_transaction, ?run_refresh_account, ?run_from_attributes;
    monad)).

Ltac go := repeat (progress (run; simplify_map_eq)).

Ltac do_flush :=
  unfold flush, dirty_accounts, new_accounts, new_transactions,
    insert_transaction, update_account, insert_account, delete_account_row,
    has_transaction;
  simpl.

(** ** Sequential behaviour of [create_transfer], path by path *)

Section create_transfer_paths.
Variables (uuid4 : string) (transfer_data : TransferRequest.t) (db : DB).
Let from := TransferRequest.from_account_id transfer_data.
Let to := TransferRequest.to_account_id transfer_data.
Let amount := TransferRequest.amount transfer_data.
Let tid := or_else (TransferRequest.transaction_id transfer_data) uuid4.

Lemma create_transfer_same_account :
  from = to →
  call (create_transfer uuid4 transfer_data) db [] =
    (Raise (HTTPException HTTP_400_BAD_REQUEST
              (Text "Cannot transfer to the same account")), db, []).
Proof.
  subst from to amount tid. intros Heq.
  unfold call, create_transfer. cbn zeta.
  by rewrite bool_decide_eq_true_2.
Qed.

Lemma create_transfer_duplicate :
  from ≠ to →
  has_transaction tid db = true →
  call (create_transfer uuid4 transfer_data) db [] =
    (Raise (HTTPException HTTP_400_BAD_REQUEST
              (Text ("Transaction " +:+ tid +:+ " already exists"))),
     db, [SelectTransaction tid]).
Proof.
  subst from to amount tid. intros Hne Hdup.
  unfold call, create_transfer, SessionLocal. cbn zeta.
  rewrite bool_decide_eq_false_2 by done. run.
  destruct (find_Some_has_transaction _ _ Hdup) as [x ->]. done.
Qed.

Lemma create_transfer_first_missing lo rest :
  from ≠ to →
  has_transaction tid db = false →
  sorted [from; to] = lo :: rest →
  accounts db !! lo = None →
  call (create_transfer uuid4 transfer_data) db [] =
    (Raise (HTTPException HTTP_404_NOT_FOUND
              (Text ("Account " +:+ lo +:+ " not found"))),
     db, [SelectTransaction tid; SelectForUpdate lo false; RolledBack]).
Proof.
  subst from to amount tid. intros Hne Hfresh Hsort Hlo.
  unfold call, create_transfer, SessionLocal. cbn zeta.
  rewrite bool_decide_eq_false_2 by done. rewrite Hsort. run.
  rewrite (find_None_has_transaction _ _ Hfresh). run.
  rewrite Hlo. run. done.
Qed.

Lemma create_transfer_second_missing lo hi a :
  from ≠ to →
  has_transaction tid db = false →
  sorted [from; to] = [lo; hi] →
  accounts db !! lo = Some a →
  accounts db !! hi = None →
  call (create_transfer uuid4 transfer_data) db [] =
    (Raise (HTTPException HTTP_404_NOT_FOUND
              (Text ("Account " +:+ hi +:+ " not found"))),
     db,
     [SelectTransaction tid; SelectForUpdate lo true;
      SelectForUpdate hi false; RolledBack]).
Proof.
  subst from to amount tid. intros Hne Hfresh Hsort Hlo Hhi.
  unfold call, create_transfer, SessionLocal. cbn zeta.
  rewrite bool_decide_eq_false_2 by done. rewrite Hsort. run.
  rewrite (find_None_has_transaction _ _ Hfresh). run.
  rewrite Hlo. run. rewrite Hhi. run. done.
Qed.

Lemma create_transfer_insufficient a_from a_to :
  from ≠ to →
  has_transaction tid db = false →
  accounts db !! from = Some a_from →
  accounts db !! to = Some a_to →
  Account.balance a_from < amount →
  let record := Transaction_of transfer_data tid FAILED in
  call (create_transfer uuid4 transfer_data) db [] =
    (Raise (HTTPException HTTP_400_BAD_REQUEST
              (InsufficientFunds (Account.balance a_from) amount)),
     mkDB (accounts db) (transactions db ++ [record]),
     [SelectTransaction tid]
       ++ map (λ aid, SelectForUpdate aid true) (sorted [from; to])
       ++ [GetBalance from; Committed [TransactionRow record] [] [];
           GetBalance from; SelectAccount from; RolledBack]).
Proof.
  subst from to amount tid.
  destruct transfer_data as [from to amount desc otid]. cbn.
  intros Hne Hfresh Hfrom Hto Hfunds.
  unfold call, create_transfer, Transaction_of, SessionLocal. cbn zeta. monad.
  remember (or_else otid uuid4) as tid eqn:Htid. clear Htid.
  rewrite bool_decide_eq_false_2 by done.
  rewrite !sorted_pair. run.
  rewrite (find_None_has_transaction _ _ Hfresh).
  unfold has_transaction in Hfresh.
  destruct (String.ltb to from); go.
  - destruct (Z.ltb_spec (Account.balance a_from) amount); [|lia]. go.
    do_flush. go. rewrite Hfresh. go. done.
  - destruct (Z.ltb_spec (Account.balance a_from) amount); [|lia]. go.
    do_flush. go. rewrite Hfresh. go. done.
Qed.

Lemma create_transfer_completed a_from a_to :
  from ≠ to →
  has_transaction tid db = false →
  accounts db !! from = Some a_from →
  accounts db !! to = Some a_to →
  amount ≤ Account.balance a_from →
  let record := Transaction_of transfer_data tid COMPLETED in
  let a_from' :=
    Account.with_balance a_from (Account.balance a_from - amount) in
  let a_to' := Account.with_balance a_to (Account.balance a_to + amount) in
  call (create_transfer uuid4 transfer_data) db [] =
    (Return record,
     mkDB (<[to := a_to']> (<[from := a_from']> (accounts db)))
          (transactions db ++ [record]),
     [SelectTransaction tid]
       ++ map (λ aid, SelectForUpdate aid true) (sorted [from; to])
       ++ [GetBalance from; GetBalance from; GetBalance to;
           Committed [TransactionRow record] [(from, a_from'); (to, a_to')] [];
           SelectTransaction tid]).
Proof.
  subst from to amount tid.
  destruct transfer_data as [from to amount desc otid]. cbn.
  intros Hne Hfresh Hfrom Hto Hfunds.
  unfold call, create_transfer, Transaction_of, SessionLocal. cbn zeta. monad.
  remember (or_else otid uuid4) as tid eqn:Htid. clear Htid.
  rewrite bool_decide_eq_false_2 by done.
  rewrite !sorted_pair. run.
  rewrite (find_None_has_transaction _ _ Hfresh).
  unfold has_transaction in Hfresh.
  destruct (String.ltb to from); go.
  - destruct (Z.ltb_spec (Account.balance a_from) amount); [lia|]. go.
    do_flush. go. rewrite Hfresh. go.
    rewrite find_app_fresh by done. reflexivity.
  - destruct (Z.ltb_spec (Account.balance a_from) amount); [lia|]. go.
    do_flush. go. rewrite Hfresh. go.
    rewrite find_app_fresh by done. reflexivity.
Qed.

End create_transfer_paths.

(** Every sequential call of [create_transfer] takes one of three shapes:
    rejected with the store untouched, recorded as failed with the balances
    untouched, or completed. *)
Lemma sorted_pair_cases (a b : string) :
  sorted [a; b] = [a; b] ∨ sorted [a; b] = [b; a].
Proof. rewrite sorted_pair. destruct (String.ltb b a); auto. Qed.

Lemma create_transfer_cases uuid4 transfer_data db :
  let from := TransferRequest.from_account_id transfer_data in
  let to := TransferRequest.to_account_id transfer_data in
  let amount := TransferRequest.amount transfer_data in
  let tid := or_else (TransferRequest.transaction_id transfer_data) uuid4 in
  (∃ e l, call (create_transfer uuid4 transfer_data) db [] = (Raise e, db, l))
  ∨ (∃ a_from a_to l,
        from ≠ to ∧ has_transaction tid db = false
        ∧ accounts db !! from = Some a_from ∧ accounts db !! to = Some a_to
        ∧ Account.balance a_from < amount
        ∧ call (create_transfer uuid4 transfer_data) db [] =
            (Raise (HTTPException HTTP_400_BAD_REQUEST
                      (InsufficientFunds (Account.balance a_from) amount)),
             mkDB (accounts db)
                  (transactions db ++ [Transaction_of transfer_data tid FAILED]),
             l))
  ∨ (∃ a_from a_to l,
        from ≠ to ∧ has_transaction tid db = false
        ∧ accounts db !! from = Some a_from ∧ accounts db !! to = Some a_to
        ∧ amount ≤ Account.balance a_from
        ∧ call (create_transfer uuid4 transfer_data) db [] =
            (Return (Transaction_of transfer_data tid COMPLETED),
             mkDB (<[to := Account.with_balance a_to
                              (Account.balance a_to + amount)]>
                     (<[from := Account.with_balance a_from
                                  (Account.balance a_from - amount)]>
                        (accounts db)))
                  (transactions db
                   ++ [Transaction_of transfer_data tid COMPLETED]),
             l)).
Proof.
  intros from to amount tid.
  destruct (decide (from = to)) as [Heq|Hne].
  { left. eexists _, _. by apply create_transfer_same_account. }
  destruct (has_transaction tid db) eqn:Htid.
  { left. eexists _, _. by apply create_transfer_duplicate. }
  destruct (accounts db !! from) as [a_from|] eqn:Hfrom; last first.
  { left. destruct (sorted_pair_cases from to) as [Hs|Hs].
    - eexists _, _. by eapply create_transfer_first_missing.
    - destruct (accounts db !! to) as [a_to|] eqn:Hto.
      + eexists _, _. by eapply create_transfer_second_missing.
      + eexists _, _. by eapply create_transfer_first_missing. }
  destruct (accounts db !! to) as [a_to|] eqn:Hto; last first.
  { left. destruct (sorted_pair_cases from to) as [Hs|Hs].
    - eexists _, _. by eapply create_transfer_second_missing.
    - eexists _, _. by eapply create_transfer_first_missing. }
  destruct (Z.lt_ge_cases (Account.balance a_from) amount) as [Hlt|Hge].
  - right; left. eexists a_from, a_to, _. repeat split; try done.
    by apply (create_transfer_insufficient _ _ _ a_from a_to).
  - right; right. eexists a_from, a_to, _. repeat split; try done.
    by apply (create_transfer_completed _ _ _ a_from a_to).
Qed.

(** ** Sequential behaviour of the account handlers *)

Section account_paths.
Variable db : DB.

Lemma create_account_exists account_data a :
  accounts db !! AccountCreate.account_id account_data = Some a →
  call (create_account account_data) db [] =
    (Raise (HTTPException HTTP_400_BAD_REQUEST
              (Text ("Account " +:+ AccountCreate.account_id account_data
                     +:+ " already exists"))),
     db, [SelectAccount (AccountCreate.account_id account_data)]).
Proof.
  intros Ha. unfold call, create_account, SessionLocal. run.
  rewrite Ha. run. done.
Qed.

Lemma create_account_negative account_data :
  accounts db !! AccountCreate.account_id account_data = None →
  AccountCreate.initial_balance account_data < 0 →
  call (create_account account_data) db [] =
    (Raise (HTTPException HTTP_400_BAD_REQUEST
              (Text "Initial balance cannot be negative")),
     db, [SelectAccount (AccountCreate.account_id account_data)]).
Proof.
  intros Ha Hneg. unfold call, create_account, SessionLocal. run.
  rewrite Ha. run.
  destruct (Z.ltb_spec (AccountCreate.initial_balance account_data) 0);
    [done|lia].
Qed.

Lemma create_account_created account_data :
  accounts db !! AccountCreate.account_id account_data = None →
  0 ≤ AccountCreate.initial_balance account_data →
  let new_account :=
    Account.mk (AccountCreate.account_id account_data)
               (AccountCreate.owner_name account_data)
               (AccountCreate.initial_balance account_data) in
  call (create_account account_data) db [] =
    (Return new_account,
     mkDB (<[AccountCreate.account_id account_data := new_account]>
             (accounts db))
          (transactions db),
     [SelectAccount (AccountCreate.account_id account_data);
      Committed [AccountRow new_account] [] [];
      SelectAccount (AccountCreate.account_id account_data)]).
Proof.
  intros Ha Hpos. destruct account_data as [aid owner bal]. cbn in *.
  unfold call, create_account, SessionLocal. run.
  rewrite Ha. run.
  destruct (Z.ltb_spec bal 0); [lia|]. run.
  do_flush. rewrite Ha. go. done.
Qed.

Lemma get_account_found aid a :
  accounts db !! aid = Some a →
  call (get_account aid) db [] = (Return a, db, [SelectAccount aid]).
Proof.
  intros Ha. unfold call, get_account, SessionLocal. run.
  rewrite Ha. go. done.
Qed.

Lemma get_account_not_found aid :
  accounts db !! aid = None →
  call (get_account aid) db [] =
    (Raise (HTTPException HTTP_404_NOT_FOUND
              (Text ("Account " +:+ aid +:+ " not found"))),
     db, [SelectAccount aid]).
Proof.
  intros Ha. unfold call, get_account, SessionLocal. run.
  rewrite Ha. go. done.
Qed.

Lemma delete_account_not_found aid :
  accounts db !! aid = None →
  call (delete_account aid) db [] =
    (Raise (HTTPException HTTP_404_NOT_FOUND
              (Text ("Account " +:+ aid +:+ " not found"))),
     db, [SelectAccount aid]).
Proof.
  intros Ha. unfold call, delete_account, SessionLocal. run.
  rewrite Ha. go. done.
Qed.

Lemma delete_account_nonzero aid a :
  accounts db !! aid = Some a →
  Account.balance a ≠ 0 →
  call (delete_account aid) db [] =
    (Raise (HTTPException HTTP_400_BAD_REQUEST
              (Text "Cannot delete account with non-zero balance")),
     db, [SelectAccount aid; GetBalance aid]).
Proof.
  intros Ha Hb. unfold call, delete_account, SessionLocal. run.
  rewrite Ha. go.
  destruct (Z.eqb_spec (Account.balance a) 0); [done|]. go. done.
Qed.

Lemma delete_account_deleted aid a :
  accounts db !! aid = Some a →
  Account.balance a = 0 →
  unreferenced aid db →
  call (delete_account aid) db [] =
    (Return tt,
     mkDB (delete aid (accounts db)) (transactions db),
     [SelectAccount aid; GetBalance aid; Committed [] [] [aid]]).
Proof.
  intros Ha Hb Hr. unfold call, delete_account, SessionLocal. run.
  rewrite Ha. go.
  destruct (Z.eqb_spec (Account.balance a) 0); [|done]. go.
  do_flush. rewrite Hr. go. done.
Qed.

Lemma delete_account_referenced aid a :
  accounts db !! aid = Some a →
  Account.balance a = 0 →
  ¬ unreferenced aid db →
  call (delete_account aid) db [] =
    (Raise (Unexpected (IntegrityError not_null_account_ref)),
     db,
     [SelectAccount aid; GetBalance aid;
      CommitFailed (IntegrityError not_null_account_ref)]).
Proof.
  intros Ha Hb Hr. unfold call, delete_account, SessionLocal. run.
  rewrite Ha. go.
  destruct (Z.eqb_spec (Account.balance a) 0); [|done]. go.
  do_flush. apply not_false_is_true in Hr. rewrite Hr. go. done.
Qed.

End account_paths.

(** ** The sum of the balances under updates of the accounts *)




(** * The transfer engine *)







(** * Reachable stores *)

Lemma create_account_cases account_data db :
  (∃ e l, call (create_account account_data) db [] = (Raise e, db, l))
  ∨ (accounts db !! AccountCreate.account_id account_data = None
     ∧ 0 ≤ AccountCreate.initial_balance account_data
     ∧ ∃ l, call (create_account account_data) db [] =
         (Return (Account.mk (AccountCreate.account_id account_data)
                             (AccountCreate.owner_name account_data)
                             (AccountCreate.initial_balance account_data)),
          mkDB (<[AccountCreate.account_id account_data :=
                    Account.mk (AccountCreate.account_id account_data)
                               (AccountCreate.owner_name account_data)
                               (AccountCreate.initial_balance account_data)]>
                  (accounts db))
               (transactions db), l)).
Proof.
  destruct (accounts db !! AccountCreate.account_id account_data) eqn:Ha.
  { left. eexists _, _. by eapply create_account_exists. }
  destruct (Z.lt_ge_cases (AccountCreate.initial_balance account_data) 0).
  { left. eexists _, _. by apply create_account_negative. }
  right. split; [done|]. split; [done|].
  eexists. by apply create_account_created.
Qed.

Lemma delete_account_cases aid db :
  (∃ e l, call (delete_account aid) db [] = (Raise e, db, l))
  ∨ (∃ a l, accounts db !! aid = Some a ∧ Account.balance a = 0
            ∧ unreferenced aid db
            ∧ call (delete_account aid) db [] =
                (Return tt, mkDB (delete aid (accounts db)) (transactions db),
                 l)).
Proof.
  destruct (accounts db !! aid) as [a|] eqn:Ha.
  2: { left. eexists _, _. by apply delete_account_not_found. }
  destruct (decide (Account.balance a = 0)) as [Hz|Hnz].
  2: { left. eexists _, _. by eapply delete_account_nonzero. }
  destruct (existsb (references aid) (transactions db)) eqn:Hr.
  - left. eexists _, _. eapply delete_account_referenced; try done.
    unfold unreferenced. by rewrite Hr.
  - right. eexists a, _. repeat split; try done.
    by eapply delete_account_deleted.
Qed.

Lemma get_account_cases aid db :
  ∃ r l, call (get_account aid) db [] = (r, db, l).
Proof.
  destruct (accounts db !! aid) as [a|] eqn:Ha.
  - eexists _, _. by eapply get_account_found.
  - eexists _, _. by eapply get_account_not_found.
Qed.

Lemma TransferRequest_validate_Some body transfer_data :
  TransferRequest_validate body = Some transfer_data →
  transfer_data = body ∧ 0 < TransferRequest.amount body.
Proof.
  unfold TransferRequest_validate. intros H.
  destruct (length_between _ _ _); [|done].
  destruct (length_between _ _ _); [|done].
  destruct (Z.ltb_spec 0 (TransferRequest.amount body)); [|done].
  destruct (_ && _ && _ && _ && _); [|done].
  by injection H as <-.
Qed.

Lemma AccountCreate_validate_Some account_id owner_name initial_balance
    account_data :
  AccountCreate_validate account_id owner_name initial_balance
  = Some account_data →
  account_data = AccountCreate.mk account_id owner_name
                                  (default 0 initial_balance)
  ∧ 0 ≤ AccountCreate.initial_balance account_data.
Proof.
  unfold AccountCreate_validate. intros H.
  destruct (length_between _ _ _); [|done].
  destruct (length_between _ _ _); [|done].
  destruct (Z.leb_spec 0 (default 0 initial_balance)); [|done].
  simpl in H. by injection H as <-.
Qed.

Lemma serve_store_step q db : store_step db (serve q db).2.
Proof.
  destruct q as [aid owner bal|aid|aid|body uuid4]; cbn [serve].
  - destruct (AccountCreate_validate aid owner bal) as [account_data|] eqn:Hv;
      [|constructor].
    destruct (create_account_cases account_data db)
      as [(e & l & ->)|(Hfresh & Hpos & l & ->)]; cbn [snd]; [constructor|].
    by apply (step_account_created db (Account.mk _ _ _)).
  - destruct (get_account_cases aid db) as (r & l & ->). constructor.
  - destruct (delete_account_cases aid db)
      as [(e & l & ->)|(a & l & Ha & Hz & Hr & ->)]; cbn [snd]; [constructor|].
    by eapply step_account_deleted.
  - destruct (TransferRequest_validate body) as [transfer_data|] eqn:Hv;
      [|constructor].
    apply TransferRequest_validate_Some in Hv as [-> Hpos].
    destruct (create_transfer_cases uuid4 body db)
      as [(e & l & ->)|[(a_from & a_to & l & Hne & Hfresh & _ & _ & _ & ->)
                       |(a_from & a_to & l & Hne & Hfresh & Hfrom & Hto & Hle
                         & ->)]];
      cbn [snd]; [constructor| |].
    + by apply (step_transfer_failed db (Transaction_of _ _ FAILED)).
    + by apply (step_transfer_completed db (Transaction_of _ _ COMPLETED)
                                        a_from a_to).
Qed.

Lemma serve_all_snoc qs q db :
  serve_all (qs ++ [q]) db = (serve q (serve_all qs db)).2.
Proof. unfold serve_all. by rewrite foldl_app. Qed.

(** An invariant of the store that every step preserves holds after any
    sequence of requests. *)
Lemma serve_all_invariant (P : DB → Prop) :
  (∀ db db', store_step db db' → P db → P db') →
  ∀ qs db, P db → P (serve_all qs db).
Proof.
  intros Hstep qs db HP. induction qs as [|q qs IH] using rev_ind; [done|].
  rewrite serve_all_snoc. eapply Hstep; [apply serve_store_step|done].
Qed.

Lemma store_step_non_negative db db' :
  store_step db db' → non_negative db → non_negative db'.
Proof.
  intros Hstep Hdb.
  destruct Hstep as [|a Hfresh Hpos|aid a Ha Hz Hr|x Hst Hfr
                    |x a_from a_to Hst Hfr Hne Hfrom Hto Hamount];
    try done; intros k b; cbn [accounts].
  - rewrite lookup_insert. case_decide; [|by apply Hdb].
    by intros [= <-].
  - rewrite lookup_delete. case_decide; [done|by apply Hdb].
  - rewrite lookup_insert. case_decide.
    { intros [= <-]. simpl. specialize (Hdb _ _ Hto). lia. }
    rewrite lookup_insert. case_decide; [|by apply Hdb].
    intros [= <-]. simpl. lia.
Qed.

(** C5. Non-negativity.  Every account of every store reached from the
    empty store through the public interface has [balance >= 0], and every
    request preserves this.  The handler of account creation rejects a
    negative initial balance; a completed transfer had [balance >= amount] at
    its source, so the debit leaves [balance - amount >= 0]; the credit of a
    request that passed the schema ([amount > 0]) increases the destination
    balance. *)
Theorem balances_never_negative :
  (∀ qs, non_negative (serve_all qs empty_db))
  ∧ (∀ q db, non_negative db → non_negative (serve q db).2)
  ∧ (∀ account_data db,
        AccountCreate.initial_balance account_data < 0 →
        ∃ e l, call (create_account account_data) db [] = (Raise e, db, l))
  ∧ (∀ body uuid4 db x db',
        serve (POST_transfers body uuid4) db = (TransactionResponse x, db') →
        ∃ a_from a_to a_from' a_to',
          accounts db !! TransferRequest.from_account_id body = Some a_from
          ∧ accounts db !! TransferRequest.to_account_id body = Some a_to
          ∧ accounts db' !! TransferRequest.from_account_id body = Some a_from'
          ∧ accounts db' !! TransferRequest.to_account_id body = Some a_to'
          ∧ TransferRequest.amount body ≤ Account.balance a_from
          ∧ Account.balance a_from'
            = Account.balance a_from - TransferRequest.amount body
          ∧ Account.balance a_to < Account.balance a_to').
Proof.
  split; [|split; [|split]].
  - intros qs. apply (serve_all_invariant non_negative).
    + apply store_step_non_negative.
    + intros aid a. unfold empty_db; cbn [accounts]. by rewrite lookup_empty.
  - intros q db. apply store_step_non_negative, serve_store_step.
  - intros account_data db Hneg.
    destruct (create_account_cases account_data db)
      as [H|(_ & Hpos & _)]; [done|lia].
  - intros body uuid4 db x db'. cbn [serve].
    destruct (TransferRequest_validate body) as [transfer_data|] eqn:Hv;
      [|done].
    apply TransferRequest_validate_Some in Hv as [-> Hpos].
    destruct (create_transfer_cases uuid4 body db)
      as [(e & l & ->)|[(a_from & a_to & l & _ & _ & _ & _ & _ & ->)
                       |(a_from & a_to & l & Hne & _ & Hfrom & Hto & Hle & ->)]];
      cbn [respond]; try done.
    intros [= <- <-]. eexists a_from, a_to, _, _. cbn [accounts].
    split; [done|]. split; [done|].
    split; [by rewrite lookup_insert_ne, lookup_insert_eq|].
    split; [by rewrite lookup_insert_eq|].
    simpl. lia.
Qed.

(** * The log of a transfer under any schedule of concurrent commits *)

Lemma tick_shape s :
  ∃ db' os',
    tick s = mkSession db' os' (identity_map s) (dirty s) (new s) (deleted s)
                       (log s).
Proof. destruct s as [db [|f os] im d n del lg]; simpl; eauto. Qed.

Ltac projs :=
  cbn [for_in store others identity_map dirty new deleted log app
       accounts transactions
       Transaction.with_status Transaction.transaction_id
       Transaction.from_account_id Transaction.to_account_id
       Transaction.amount Transaction.status Transaction.description
       TransferRequest.from_account_id TransferRequest.to_account_id
       TransferRequest.amount TransferRequest.description
       TransferRequest.transaction_id
       AccountCreate.account_id AccountCreate.owner_name
       AccountCreate.initial_balance
       Account.account_id Account.owner_name Account.balance fst snd].

Ltac unfold_ops :=
  unfold mbind, M_bind, mret, M_ret, try_except, raise, getitem,
    query_transaction_first, query_account_first,
    query_account_for_update_first, get_balance, set_balance, add, delete_,
    commit, rollback, refresh_transaction, refresh_account, from_attributes,
    emit, load;
  projs.

(** One step of the exploration: the store that the next statement sees is
    arbitrary, and so is what it finds there. *)
Ltac explore_step :=
  match goal with
  | |- context [tick (mkSession ?a ?b ?c ?d ?e ?f ?g)] =>
      let db' := fresh "db" in
      let os' := fresh "os" in
      destruct (tick_shape (mkSession a b c d e f g)) as (db' & os' & ->)
  | |- context [match find ?p ?l with _ => _ end] => destruct (find p l) eqn:?
  | |- context [match accounts ?d !! ?k with _ => _ end] =>
      destruct (accounts d !! k) eqn:?
  | |- context [match flush ?s with _ => _ end] => destruct (flush s) eqn:?
  | |- context [if Z.ltb ?a ?b then _ else _] => destruct (Z.ltb a b) eqn:?
  end; projs.

Ltac explore :=
  repeat (first [ explore_step
                | progress (simplify_map_eq; projs)
                | progress unfold_ops ]).

Ltac leaf_reads :=
  let i := fresh "i" in
  let aid := fresh "aid" in
  let H := fresh "H" in
  intros i aid H;
  repeat (first
    [ discriminate H
    | destruct i as [|i]; cbn in H; [first [discriminate H | reflexivity]|] ]).

Ltac leaf_commits :=
  let H := fresh "H" in
  intros ? ? ? H;
  repeat (apply elem_of_cons in H as [H|H];
          [try discriminate H;
           try (injection H as -> -> ->;
                split; [repeat constructor; (by left) || (by right)|done])|]);
  try (by apply elem_of_nil in H).

(** Whatever the concurrent units of work commit and whenever they do: the
    rows locked are a prefix of the sorted pair of account ids, a balance is
    read only after both have been locked, and a commit inserts only records
    of terminal status and deletes nothing. *)
Lemma create_transfer_log uuid4 transfer_data db os :
  let from := TransferRequest.from_account_id transfer_data in
  let to := TransferRequest.to_account_id transfer_data in
  let l := (call (create_transfer uuid4 transfer_data) db os).2 in
  locks_of l `prefix_of` sorted [from; to]
  ∧ (∀ i aid, l !! i = Some (GetBalance aid) →
              locks_of (take i l) = sorted [from; to])
  ∧ (∀ ins upd del, Committed ins upd del ∈ l →
                    Forall terminal_row ins ∧ del = []).
Proof.
  destruct transfer_data as [from to amount desc otid]. cbn zeta. projs.
  unfold call, create_transfer, Transaction_of, SessionLocal. cbn zeta. projs.
  remember (or_else otid uuid4) as tid eqn:Htid. clear Htid.
  destruct (decide (from = to)) as [->|Hne].
  { rewrite bool_decide_eq_true_2 by done. unfold raise. simpl.
    split; [apply prefix_nil|]. split; [leaf_reads|leaf_commits]. }
  rewrite bool_decide_eq_false_2 by done.
  rewrite !sorted_pair.
  destruct (String.ltb to from).
  - unfold_ops. explore.
    all: split; [simpl; by eexists|split; [leaf_reads|leaf_commits]].
  - unfold_ops. explore.
    all: split; [simpl; by eexists|split; [leaf_reads|leaf_commits]].
Qed.

(** ** The order of the locks *)

Lemma ltb_leb (a b : string) : String.ltb a b = true → String.leb a b = true.
Proof. unfold String.ltb, String.leb. by destruct (String.compare a b). Qed.

Lemma ltb_false_leb (a b : string) :
  String.ltb b a = false → String.leb a b = true.
Proof.
  unfold String.ltb, String.leb. rewrite (String.compare_antisym a b).
  by destruct (String.compare b a).
Qed.





(** * Transaction records *)

Lemma store_step_transactions db db' :
  store_step db db' →
  ∃ added, transactions db' = transactions db ++ added
           ∧ Forall terminal added.
Proof.
  intros Hstep. destruct Hstep; cbn [transactions].
  1-3: exists []; by rewrite app_nil_r.
  - eexists [_]. split; [done|]. apply Forall_singleton. by right.
  - eexists [_]. split; [done|]. apply Forall_singleton. by left.
Qed.

(** C8. Every record that the engine commits has a terminal status, and a
    committed record is never touched again.  Under every schedule of
    concurrent commits, each commit in the log of a transfer inserts only
    records whose status is [completed] or [failed], so [pending] exists in
    the handler only; served through the public interface, a request keeps
    the stored records as they are, in their order, and adds only records
    of terminal status, so every record of every reachable store is
    terminal and the records of a store stay a prefix of those of every
    later store. *)
Theorem records_are_terminal_and_final :
  (∀ uuid4 transfer_data db os ins upd del,
      Committed ins upd del
        ∈ (call (create_transfer uuid4 transfer_data) db os).2 →
      Forall terminal_row ins)
  ∧ (∀ q db, ∃ added,
        transactions (serve q db).2 = transactions db ++ added
        ∧ Forall terminal added)
  ∧ (∀ qs, Forall terminal (transactions (serve_all qs empty_db)))
  ∧ (∀ qs db, transactions db `prefix_of` transactions (serve_all qs db)).
Proof.
  split; [|split; [|split]].
  - intros uuid4 transfer_data db os ins upd del Hin.
    by destruct (create_transfer_log uuid4 transfer_data db os)
      as (_ & _ & Hc); destruct (Hc _ _ _ Hin).
  - intros q db. apply store_step_transactions, serve_store_step.
  - intros qs.
    apply (serve_all_invariant (λ db, Forall terminal (transactions db)));
      [|by constructor].
    intros db db' Hstep Hdb.
    destruct (store_step_transactions _ _ Hstep) as (added & -> & Hadded).
    by apply Forall_app.
  - intros qs db.
    apply (serve_all_invariant
             (λ db', transactions db `prefix_of` transactions db'));
      [|done].
    intros db1 db2 Hstep Hpre.
    destruct (store_step_transactions _ _ Hstep) as (added & -> & _).
    by apply prefix_app_r.
Qed.

Lemma records_are_terminal_and_final_witness :
  Forall terminal_row
    [TransactionRow (Transaction.mk "T1" "A" "B" 10001 FAILED None)].
Proof.
  destruct records_are_terminal_and_final as (Hcommit & _).
  apply (Hcommit "uuid" (transfer "A" "B" 10001 "T1") poor_and_empty []
                 _ [] []).
  apply (list_elem_of_lookup_2 _ 4%nat). reflexivity.
Defined.

Lemma balances_never_negative_witness :
  non_negative
    (serve_all [POST_accounts "A" "Alice" (Some 10000);
                POST_accounts "B" "Bob" None;
                POST_transfers (transfer "A" "B" 10000 "T1") "uuid";
                POST_transfers (transfer "A" "B" 1 "T2") "uuid"] empty_db).
Proof. exact (proj1 balances_never_negative _). Defined.

(** * Idempotency *)

Lemma count_transactions_fresh tid db :
  has_transaction tid db = false → count_transactions tid db = 0%nat.
Proof.
  unfold has_transaction, count_transactions.
  induction (transactions db) as [|x l IH]; [done|]. simpl.
  rewrite filter_cons. case_bool_decide; simpl; [done|].
  intros Hl. rewrite decide_False by done. by apply IH.
Qed.

Lemma count_transactions_snoc tid m db x :
  count_transactions tid (mkDB m (transactions db ++ [x]))
  = (count_transactions tid db
     + if decide (Transaction.transaction_id x = tid) then 1 else 0)%nat.
Proof.
  unfold count_transactions; cbn [transactions].
  rewrite filter_app, length_app. f_equal.
  rewrite filter_cons, filter_nil. by case_decide.
Qed.

Lemma has_transaction_snoc tid m db x :
  has_transaction tid (mkDB m (transactions db ++ [x]))
  = has_transaction tid db
    || bool_decide (Transaction.transaction_id x = tid).
Proof.
  unfold has_transaction; cbn [transactions].
  rewrite existsb_app. simpl. by rewrite orb_false_r.
Qed.

(** C3, as the code has it.  The check that source and destination differ
    comes before the lookup of the transaction id.  A request with two
    distinct accounts whose transaction id (the one supplied or, when none
    or an empty one is supplied, the one generated) identifies a stored
    record is rejected as already existing after the single lookup, with
    the store as it was, whatever the status of the stored record.  Hence,
    for two requests with the same transaction id served one after the
    other from a store with no record under it: at most one record under
    that id is stored in the end, at most one of the two calls changes the
    accounts, and once the first call has stored its record the second
    call changes nothing, leaves exactly one record and, when its two
    accounts differ, is answered that the transaction already exists. *)
Theorem duplicate_transaction_id_rejected :
  (∀ uuid4 transfer_data db,
      let tid :=
        or_else (TransferRequest.transaction_id transfer_data) uuid4 in
      TransferRequest.from_account_id transfer_data
      ≠ TransferRequest.to_account_id transfer_data →
      has_transaction tid db = true →
      call (create_transfer uuid4 transfer_data) db [] =
        (Raise (HTTPException HTTP_400_BAD_REQUEST
                  (Text ("Transaction " +:+ tid +:+ " already exists"))),
         db, [SelectTransaction tid]))
  ∧ (∀ uuid1 first uuid2 second db,
        let tid := or_else (TransferRequest.transaction_id first) uuid1 in
        let db1 := (call (create_transfer uuid1 first) db []).1.2 in
        let r2 := (call (create_transfer uuid2 second) db1 []).1.1 in
        let db2 := (call (create_transfer uuid2 second) db1 []).1.2 in
        or_else (TransferRequest.transaction_id second) uuid2 = tid →
        has_transaction tid db = false →
        (count_transactions tid db2 ≤ 1)%nat
        ∧ (accounts db1 = accounts db ∨ accounts db2 = accounts db1)
        ∧ (has_transaction tid db1 = true →
           db2 = db1
           ∧ count_transactions tid db2 = 1%nat
           ∧ (TransferRequest.from_account_id second
              ≠ TransferRequest.to_account_id second →
              r2 = Raise (HTTPException HTTP_400_BAD_REQUEST
                            (Text ("Transaction " +:+ tid
                                   +:+ " already exists")))))).
Proof.
  split.
  { intros. by apply create_transfer_duplicate. }
  intros uuid1 first uuid2 second db tid db1 r2 db2 Hsame Hfresh.
  assert (Hstored : has_transaction tid db1 = true →
            db2 = db1 ∧ count_transactions tid db1 = 1%nat
            ∧ (TransferRequest.from_account_id second
               ≠ TransferRequest.to_account_id second →
               r2 = Raise (HTTPException HTTP_400_BAD_REQUEST
                             (Text ("Transaction " +:+ tid
                                    +:+ " already exists"))))).
  { intros Hdb1. split; [|split].
    - subst db2.
      destruct (decide (TransferRequest.from_account_id second
                        = TransferRequest.to_account_id second)) as [Heq|Hne].
      + by rewrite create_transfer_same_account.
      + rewrite create_transfer_duplicate; rewrite ?Hsame; done.
    - subst db1.
      destruct (create_transfer_cases uuid1 first db)
        as [(e & l & H)|[(a_from & a_to & l & _ & _ & _ & _ & _ & H)
                        |(a_from & a_to & l & _ & _ & _ & _ & _ & H)]];
        rewrite H in *; cbn [fst snd] in *.
      * congruence.
      * rewrite count_transactions_snoc, decide_True by done.
        by rewrite count_transactions_fresh.
      * rewrite count_transactions_snoc, decide_True by done.
        by rewrite count_transactions_fresh.
    - intros Hne. subst r2.
      rewrite create_transfer_duplicate; rewrite ?Hsame; done. }
  destruct (has_transaction tid db1) eqn:Hdb1.
  - destruct (Hstored eq_refl) as (Heq & Hc & Hr).
    split; [rewrite Heq; lia|]. split; [right; by rewrite Heq|].
    intros _. by rewrite Heq.
  - split; [|split; [|done]].
    + subst db2.
      destruct (create_transfer_cases uuid2 second db1)
        as [(e & l & H)|[(a_from & a_to & l & _ & _ & _ & _ & _ & H)
                        |(a_from & a_to & l & _ & _ & _ & _ & _ & H)]];
        rewrite H; cbn [fst snd].
      * rewrite count_transactions_fresh by done. lia.
      * rewrite count_transactions_snoc.
        rewrite count_transactions_fresh by done. case_decide; lia.
      * rewrite count_transactions_snoc.
        rewrite count_transactions_fresh by done. case_decide; lia.
    + left. subst db1.
      destruct (create_transfer_cases uuid1 first db)
        as [(e & l & H)|[(a_from & a_to & l & _ & _ & _ & _ & _ & H)
                        |(a_from & a_to & l & _ & _ & _ & _ & _ & H)]];
        rewrite H in *; cbn [fst snd] in *; try done.
      rewrite has_transaction_snoc in Hdb1.
      rewrite bool_decide_eq_true_2 in Hdb1 by done.
      by rewrite orb_true_r in Hdb1.
Qed.

Lemma duplicate_transaction_id_rejected_witness :
  call (create_transfer "uuid" (transfer "A" "B" 25000 "T1")) after_T1 []
  = (Raise (HTTPException 400 (Text "Transaction T1 already exists")),
     after_T1, [SelectTransaction "T1"]).
Proof.
  apply (proj1 duplicate_transaction_id_rejected
               "uuid" (transfer "A" "B" 25000 "T1") after_T1).
  - discriminate.
  - reflexivity.
Defined.

(** C3, as stated, fails on a request that names the same account twice:
    its transaction id T1 identifies a stored record, and the answer is the
    rejection of the same-account transfer, not that the transaction
    already exists. *)
Lemma duplicate_id_on_same_account_counterexample :
  has_transaction "T1" after_T1 = true
  ∧ call (create_transfer "uuid" (transfer "A" "A" 25000 "T1")) after_T1 []
    = (Raise (HTTPException 400 (Text "Cannot transfer to the same account")),
       after_T1, [])
  ∧ (call (create_transfer "uuid" (transfer "A" "A" 25000 "T1")) after_T1 []).1.1
    ≠ Raise (HTTPException 400 (Text "Transaction T1 already exists")).
Proof. split; [reflexivity|]. split; [reflexivity|]. discriminate. Qed.

(** * Deleting an account *)

(** C9, as the code has it.  Deleting an account is answered not found
    when the account is absent and refused when its balance is not zero,
    in both cases with the store as it was; an account with balance exactly
    0 that no stored transaction references is deleted, and a subsequent
    lookup of its id is answered not found. *)
Theorem delete_account_contract aid db :
  (accounts db !! aid = None →
   serve (DELETE_account aid) db
   = (Failure (HTTPException HTTP_404_NOT_FOUND
                 (Text ("Account " +:+ aid +:+ " not found"))), db))
  ∧ (∀ a, accounts db !! aid = Some a → Account.balance a ≠ 0 →
          serve (DELETE_account aid) db
          = (Failure (HTTPException HTTP_400_BAD_REQUEST
                        (Text "Cannot delete account with non-zero balance")),
             db))
  ∧ (∀ a, accounts db !! aid = Some a → Account.balance a = 0 →
          unreferenced aid db →
          ∃ db', serve (DELETE_account aid) db = (NoContent, db')
                 ∧ accounts db' !! aid = None
                 ∧ serve (GET_account aid) db'
                   = (Failure (HTTPException HTTP_404_NOT_FOUND
                                 (Text ("Account " +:+ aid +:+ " not found"))),
                      db')).
Proof.
  split; [|split].
  - intros Ha. cbn [serve]. by rewrite delete_account_not_found.
  - intros a Ha Hb. cbn [serve]. by rewrite (delete_account_nonzero _ _ a).
  - intros a Ha Hb Hr. eexists. cbn [serve].
    rewrite (delete_account_deleted _ _ a) by done. cbn [respond].
    split; [done|]. cbn [accounts]. split; [apply lookup_delete_eq|].
    rewrite get_account_not_found; [done|]. apply lookup_delete_eq.
Qed.

Lemma delete_account_contract_witness :
  ∃ db',
    serve (DELETE_account "B") poor_and_empty = (NoContent, db')
    ∧ accounts db' !! "B" = None
    ∧ serve (GET_account "B") db'
      = (Failure (HTTPException 404 (Text "Account B not found")), db').
Proof.
  apply (proj2 (proj2 (delete_account_contract "B" poor_and_empty))
               (Account.mk "B" "Bob" 0)).
  - reflexivity.
  - reflexivity.
  - reflexivity.
Defined.

(** C9, as stated, fails on an account that a stored transaction
    references.  After the requests of [history], account A has balance
    exactly 0 and is the source of the stored failed transfer T1.  Deleting
    A does not succeed: the commit is refused by the non-null foreign keys
    of the transactions table, the handler lets the error through, the
    store is as before and a subsequent lookup still finds A. *)
Lemma delete_account_with_history_counterexample :
  accounts after_history !! "A" = Some (Account.mk "A" "Alice" 0)
  ∧ transactions after_history
    = [Transaction.mk "T1" "A" "B" 100 FAILED None]
  ∧ serve (DELETE_account "A") after_history
    = (Failure (Unexpected (IntegrityError not_null_account_ref)),
       after_history)
  ∧ (serve (GET_account "A")
           (serve (DELETE_account "A") after_history).2).1
    = AccountResponse (Account.mk "A" "Alice" 0).
Proof. vm_compute. repeat split. Qed.

(** * Creating an account *)

Lemma create_account_never_negative_error account_data db os :
  0 ≤ AccountCreate.initial_balance account_data →
  (call (create_account account_data) db os).1.1
  ≠ Raise (HTTPException HTTP_400_BAD_REQUEST
             (Text "Initial balance cannot be negative")).
Proof.
  intros Hpos. destruct account_data as [aid owner bal]. cbn in Hpos.
  unfold call, create_account, SessionLocal. projs.
  destruct (Z.ltb_spec bal 0) as [|_]; [lia|].
  unfold_ops. explore; cbn; try discriminate.
Qed.

(** C10. A body that the schema [AccountCreate] accepts has an initial
    balance that is the one given, or 0 when none is given, and that is not
    negative.  So the test [initial_balance < 0] of the handler is false, the
    handler never answers that the initial balance cannot be negative, on
    any store and under any schedule, nor does the endpoint, and an account
    that the endpoint creates is stored with that balance, which is at
    least 0. *)
Theorem negative_balance_branch_unreachable
    (account_id owner_name : string) (initial_balance : option Decimal)
    (account_data : AccountCreate.t) :
  AccountCreate_validate account_id owner_name initial_balance
  = Some account_data →
  AccountCreate.initial_balance account_data = default 0 initial_balance
  ∧ 0 ≤ AccountCreate.initial_balance account_data
  ∧ (AccountCreate.initial_balance account_data <? 0) = false
  ∧ (∀ db os,
        (call (create_account account_data) db os).1.1
        ≠ Raise (HTTPException HTTP_400_BAD_REQUEST
                   (Text "Initial balance cannot be negative")))
  ∧ (∀ db,
        (serve (POST_accounts account_id owner_name initial_balance) db).1
        ≠ Failure (HTTPException HTTP_400_BAD_REQUEST
                     (Text "Initial balance cannot be negative")))
  ∧ (∀ db a db',
        serve (POST_accounts account_id owner_name initial_balance) db
        = (AccountResponse a, db') →
        accounts db' !! account_id = Some a
        ∧ Account.balance a = default 0 initial_balance
        ∧ 0 ≤ Account.balance a).
Proof.
  intros Hv. pose proof Hv as Hv'.
  apply AccountCreate_validate_Some in Hv' as [Hdata Hpos].
  split; [by subst|]. split; [done|]. split; [by apply Z.ltb_ge|].
  split; [|split].
  - intros db os. by apply create_account_never_negative_error.
  - intros db. cbn [serve]. rewrite Hv.
    pose proof (create_account_never_negative_error account_data db [] Hpos)
      as Hne.
    destruct (call (create_account account_data) db []) as [[r db'] l].
    destruct r as [a|e]; cbn [fst snd respond] in *; [done|].
    intros [= ->]. by apply Hne.
  - intros db a db'. cbn [serve]. rewrite Hv.
    destruct (create_account_cases account_data db)
      as [(e & l & ->)|(Hfresh & _ & l & ->)]; cbn [respond]; [done|].
    intros [= <- <-]. cbn [accounts Account.balance].
    subst account_data. cbn in *. split; [apply lookup_insert_eq|done].
Qed.

Lemma negative_balance_branch_unreachable_witness :
  AccountCreate_validate "A" "Alice" None
  = Some (AccountCreate.mk "A" "Alice" 0)
  ∧ (serve (POST_accounts "A" "Alice" None) two_accounts).1
    ≠ Failure (HTTPException HTTP_400_BAD_REQUEST
                 (Text "Initial balance cannot be negative")).
Proof.
  split; [reflexivity|].
  apply (negative_balance_branch_unreachable
           "A" "Alice" None (AccountCreate.mk "A" "Alice" 0)).
  reflexivity.
Defined.

(** * A duplicate that commits first *)

(** C7, as the code has it.  Let the lookup of the transaction id find no
    record, let both account rows be found and locked, and let a record
    with the same transaction id be in the store when this unit of work
    commits (concurrent commits [f0] to [f3] take effect before the lookup,
    before each lock and before the commit).  Then the commit is refused
    by the uniqueness of the transaction id, the handler rolls back, its
    attempt to record a failed transaction is refused by the same
    constraint and dropped, and the call fails with the internal error
    (status 500); the unit of work has committed nothing, so the store is
    the one left by the concurrent commits. *)
Theorem losing_duplicate_gets_internal_error
    (uuid4 : string) (transfer_data : TransferRequest.t) (db : DB)
    (f0 f1 f2 f3 : DB → DB) (lo hi : string) :
  let from := TransferRequest.from_account_id transfer_data in
  let to := TransferRequest.to_account_id transfer_data in
  let tid := or_else (TransferRequest.transaction_id transfer_data) uuid4 in
  let at_gate := f0 db in
  let at_first_lock := f1 at_gate in
  let at_second_lock := f2 at_first_lock in
  let at_commit := f3 at_second_lock in
  from ≠ to →
  sorted [from; to] = [lo; hi] →
  has_transaction tid at_gate = false →
  is_Some (accounts at_first_lock !! lo) →
  is_Some (accounts at_second_lock !! hi) →
  is_Some (accounts at_commit !! from) →
  is_Some (accounts at_commit !! to) →
  has_transaction tid at_commit = true →
  ∃ l,
    call (create_transfer uuid4 transfer_data) db [f0; f1; f2; f3]
    = (Raise (HTTPException HTTP_500_INTERNAL_SERVER_ERROR
                (TransferFailed (IntegrityError unique_transaction_id))),
       at_commit, l)
    ∧ commits_of l = []
    ∧ CommitFailed (IntegrityError unique_transaction_id) ∈ l.
Proof.
  destruct transfer_data as [from to amount desc otid]. cbn zeta. projs.
  intros Hne Hsort Hgate [a_lo Hlo] [a_hi Hhi] [c_from Hfrom] [c_to Hto] Hdup.
  unfold call, create_transfer, Transaction_of, SessionLocal. cbn zeta. projs.
  remember (or_else otid uuid4) as tid eqn:Htid. clear Htid.
  rewrite bool_decide_eq_false_2 by done. rewrite Hsort.
  assert (Hlohi : lo ≠ hi ∧ ((lo = from ∧ hi = to) ∨ (lo = to ∧ hi = from))).
  { rewrite sorted_pair in Hsort.
    destruct (String.ltb to from); injection Hsort as <- <-; split; auto. }
  destruct Hlohi as [Hlh Hcases].
  unfold has_transaction in Hgate, Hdup.
  unfold_ops. cbn [tick others]. projs.
  rewrite (find_None_has_transaction tid (f0 db)) by done.
  unfold_ops. cbn [tick others]. projs. rewrite Hlo. projs.
  cbn [tick others]. projs. rewrite Hhi. projs.
  destruct Hcases as [[-> ->]|[-> ->]]; simplify_map_eq; projs.
  - destruct (Z.ltb (Account.balance a_lo) amount); projs;
      cbn [tick others]; projs.
    + do_flush. rewrite Hdup. projs. do_flush. rewrite Hdup. projs.
      eexists. split; [reflexivity|]. split; [reflexivity|].
      apply (list_elem_of_lookup_2 _ 4%nat). reflexivity.
    + simplify_map_eq. projs. do_flush. simplify_map_eq. rewrite Hdup. projs.
      do_flush. rewrite Hdup. projs.
      eexists. split; [reflexivity|]. split; [reflexivity|].
      apply (list_elem_of_lookup_2 _ 6%nat). reflexivity.
  - destruct (Z.ltb (Account.balance a_hi) amount); projs;
      cbn [tick others]; projs.
    + do_flush. rewrite Hdup. projs. do_flush. rewrite Hdup. projs.
      eexists. split; [reflexivity|]. split; [reflexivity|].
      apply (list_elem_of_lookup_2 _ 4%nat). reflexivity.
    + simplify_map_eq. projs. do_flush. simplify_map_eq. rewrite Hdup. projs.
      do_flush. rewrite Hdup. projs.
      eexists. split; [reflexivity|]. split; [reflexivity|].
      apply (list_elem_of_lookup_2 _ 6%nat). reflexivity.
Qed.

Lemma losing_duplicate_gets_internal_error_witness :
  ∃ l,
    call (create_transfer "uuid" (transfer "A" "B" 25000 "T1")) two_accounts
         [id; winner; id; id]
    = (Raise (HTTPException 500
                (TransferFailed (IntegrityError unique_transaction_id))),
       winner two_accounts, l)
    ∧ commits_of l = []
    ∧ CommitFailed (IntegrityError unique_transaction_id) ∈ l.
Proof.
  apply (losing_duplicate_gets_internal_error
           "uuid" (transfer "A" "B" 25000 "T1") two_accounts
           id winner id id "A" "B").
  - discriminate.
  - reflexivity.
  - reflexivity.
  - by eexists.
  - by eexists.
  - by eexists.
  - by eexists.
  - reflexivity.
Defined.

(** C7, as stated, fails: two requests carry the transaction id T1, both
    find no record under it, the other one commits first ([winner]), and
    this one, whose commit the uniqueness constraint refuses, is answered
    with the internal error and not that the transaction already exists. *)
Lemma losing_duplicate_counterexample :
  has_transaction "T1" two_accounts = false
  ∧ has_transaction "T1" (winner two_accounts) = true
  ∧ (call (create_transfer "uuid" (transfer "A" "B" 25000 "T1")) two_accounts
          [id; winner; id; id]).1.1
    = Raise (HTTPException 500
               (TransferFailed (IntegrityError unique_transaction_id)))
  ∧ (call (create_transfer "uuid" (transfer "A" "B" 25000 "T1")) two_accounts
          [id; winner; id; id]).1.1
    ≠ Raise (HTTPException 400 (Text "Transaction T1 already exists")).
Proof.
  split; [reflexivity|]. split; [reflexivity|]. split; [reflexivity|].
  discriminate.
Qed.

(** * The read endpoints and how they compose with the writes *)

Lemma run_query_transactions_all keep skip limit db im d n del lg :
  query_transactions_all keep skip limit (mkSession db [] im d n del lg) =
  (Return (take limit (drop skip (reverse (List.filter keep
                                             (transactions db))))),
   mkSession db [] im d n del lg).
Proof. reflexivity. Qed.

Lemma run_query_accounts_all skip limit db im d n del lg :
  query_accounts_all skip limit (mkSession db [] im d n del lg) =
  (Return (take limit (drop skip (map_to_list (accounts db)).*2)),
   mkSession db [] im d n del lg).
Proof. reflexivity. Qed.

Lemma get_transfer_found tid db x :
  find (λ y, bool_decide (Transaction.transaction_id y = tid))
       (transactions db) = Some x →
  call (get_transfer tid) db [] = (Return x, db, [SelectTransaction tid]).
Proof.
  intros Hx. unfold call, get_transfer, SessionLocal. run. rewrite Hx. done.
Qed.

Lemma get_transfer_not_found tid db :
  has_transaction tid db = false →
  call (get_transfer tid) db [] =
    (Raise (HTTPException HTTP_404_NOT_FOUND
              (Text ("Transaction " +:+ tid +:+ " not found"))),
     db, [SelectTransaction tid]).
Proof.
  intros Hx. unfold call, get_transfer, SessionLocal. run.
  rewrite (find_None_has_transaction _ _ Hx). done.
Qed.

Lemma get_account_balance_found aid db a :
  accounts db !! aid = Some a →
  call (get_account_balance aid) db [] =
    (Return (AccountBalance.mk (Account.account_id a) (Account.balance a)),
     db, [SelectAccount aid; GetBalance aid]).
Proof.
  intros Ha. unfold call, get_account_balance, SessionLocal. run.
  rewrite Ha. go. done.
Qed.

Lemma get_account_balance_not_found aid db :
  accounts db !! aid = None →
  call (get_account_balance aid) db [] =
    (Raise (HTTPException HTTP_404_NOT_FOUND
              (Text ("Account " +:+ aid +:+ " not found"))),
     db, [SelectAccount aid]).
Proof.
  intros Ha. unfold call, get_account_balance, SessionLocal. run.
  rewrite Ha. go. done.
Qed.



(** X2. [get_transfer] answers not found exactly when no stored record has
    the transaction id; otherwise it returns a stored record with that id.
    In both cases the store is left as it was. *)
Theorem get_transfer_lookup (tid : string) (db : DB) :
  (call (get_transfer tid) db []).1.2 = db
  ∧ (has_transaction tid db = false ↔
     (call (get_transfer tid) db []).1.1
     = Raise (HTTPException HTTP_404_NOT_FOUND
                (Text ("Transaction " +:+ tid +:+ " not found"))))
  ∧ (∀ x, (call (get_transfer tid) db []).1.1 = Return x →
          x ∈ transactions db ∧ Transaction.transaction_id x = tid).
Proof.
  destruct (has_transaction tid db) eqn:Hh.
  - destruct (find_Some_has_transaction _ _ Hh) as [x Hx].
    rewrite (get_transfer_found _ _ _ Hx). cbn [fst snd].
    split; [done|]. split; [split; discriminate|].
    intros y [= <-]. apply find_some in Hx as [Hin Hid].
    split; [by apply list_elem_of_In|]. by apply bool_decide_eq_true in Hid.
  - rewrite (get_transfer_not_found _ _ Hh). cbn [fst snd].
    split; [done|]. split; [done|]. discriminate.
Qed.

Lemma get_transfer_lookup_witness :
  (call (get_transfer "T1") after_T1 []).1.1
  = Return (Transaction.mk "T1" "A" "B" 25000 COMPLETED None)
  ∧ Transaction.mk "T1" "A" "B" 25000 COMPLETED None ∈ transactions after_T1.
Proof.
  split; [reflexivity|].
  apply (proj2 (proj2 (get_transfer_lookup "T1" after_T1))).
  reflexivity.
Defined.





(** X5. Creating an account under an id that is taken is refused, whatever
    the owner and the initial balance of the request, and the account
    stored under that id, like the rest of the store, stays as it was. *)
Theorem create_account_on_taken_id
    (account_data : AccountCreate.t) (db : DB) (a : Account.t) :
  let aid := AccountCreate.account_id account_data in
  accounts db !! aid = Some a →
  call (create_account account_data) db [] =
    (Raise (HTTPException HTTP_400_BAD_REQUEST
              (Text ("Account " +:+ aid +:+ " already exists"))),
     db, [SelectAccount aid])
  ∧ (call (get_account aid)
          (call (create_account account_data) db []).1.2 []).1.1
    = Return a.
Proof.
  intros aid Ha. rewrite (create_account_exists _ _ a) by done.
  split; [done|]. cbn [fst snd]. by rewrite (get_account_found _ aid a).
Qed.

Lemma create_account_on_taken_id_witness :
  (call (get_account "A")
        (call (create_account (AccountCreate.mk "A" "Mallory" 999))
              two_accounts []).1.2 []).1.1
  = Return (Account.mk "A" "Alice" 100000).
Proof.
  apply (create_account_on_taken_id
           (AccountCreate.mk "A" "Mallory" 999) two_accounts
           (Account.mk "A" "Alice" 100000)).
  reflexivity.
Defined.

(** * More on the writes *)

(** X6. When another unit of work creates the same account id after this
    one has found the id free and before it commits, the commit of
    [create_account] is refused by the uniqueness of [account_id]; the
    handler has no handler for that error, which reaches the caller as it
    is, and the store is the one left by the other unit of work. *)
Theorem create_account_concurrent_duplicate
    (account_data : AccountCreate.t) (db : DB) (f0 f1 : DB → DB)
    (a : Account.t) :
  let aid := AccountCreate.account_id account_data in
  accounts (f0 db) !! aid = None →
  0 ≤ AccountCreate.initial_balance account_data →
  accounts (f1 (f0 db)) !! aid = Some a →
  call (create_account account_data) db [f0; f1] =
    (Raise (Unexpected (IntegrityError unique_account_id)),
     f1 (f0 db),
     [SelectAccount aid; CommitFailed (IntegrityError unique_account_id)]).
Proof.
  destruct account_data as [aid owner bal]. cbn zeta. projs.
  intros Hfree Hpos Htaken.
  unfold call, create_account, SessionLocal. projs.
  unfold_ops. cbn [tick others]. projs. rewrite Hfree. projs.
  destruct (Z.ltb_spec bal 0); [lia|]. projs. cbn [tick others]. projs.
  unfold flush, new_accounts, insert_account. cbn. rewrite Htaken. done.
Qed.

Lemma create_account_concurrent_duplicate_witness :
  call (create_account (AccountCreate.mk "C" "Carol" 700)) two_accounts
       [id; λ db, (call (create_account (AccountCreate.mk "C" "Chuck" 5))
                        db []).1.2]
  = (Raise (Unexpected (IntegrityError unique_account_id)),
     (call (create_account (AccountCreate.mk "C" "Chuck" 5))
           two_accounts []).1.2,
     [SelectAccount "C"; CommitFailed (IntegrityError unique_account_id)]).
Proof.
  apply (create_account_concurrent_duplicate
           (AccountCreate.mk "C" "Carol" 700) two_accounts id
           (λ db, (call (create_account (AccountCreate.mk "C" "Chuck" 5))
                        db []).1.2)
           (Account.mk "C" "Chuck" 5)).
  - reflexivity.
  - cbn. lia.
  - reflexivity.
Defined.

(** X7. A transfer one of whose accounts is missing is answered not found
    and leaves the store as it was: no record is written, failed or other,
    and nothing is committed.  The account named is the first missing one
    in the sorted order of the two ids, so the smaller id when both are
    missing. *)
Theorem create_transfer_account_not_found
    (uuid4 : string) (transfer_data : TransferRequest.t) (db : DB)
    (lo hi : string) :
  let from := TransferRequest.from_account_id transfer_data in
  let to := TransferRequest.to_account_id transfer_data in
  let tid := or_else (TransferRequest.transaction_id transfer_data) uuid4 in
  let missing := if accounts db !! lo is None then lo else hi in
  from ≠ to →
  has_transaction tid db = false →
  sorted [from; to] = [lo; hi] →
  accounts db !! lo = None ∨ accounts db !! hi = None →
  ∃ l,
    call (create_transfer uuid4 transfer_data) db [] =
      (Raise (HTTPException HTTP_404_NOT_FOUND
                (Text ("Account " +:+ missing +:+ " not found"))), db, l)
    ∧ commits_of l = []
    ∧ RolledBack ∈ l.
Proof.
  intros from to tid missing Hne Hfresh Hsort Hmiss. subst missing.
  destruct (accounts db !! lo) as [a_lo|] eqn:Hlo.
  - destruct Hmiss as [|Hhi]; [done|].
    rewrite (create_transfer_second_missing _ _ _ lo hi a_lo) by done.
    eexists. split; [done|]. split; [done|].
    apply (list_elem_of_lookup_2 _ 3%nat). done.
  - rewrite (create_transfer_first_missing _ _ _ lo [hi]) by done.
    eexists. split; [done|]. split; [done|].
    apply (list_elem_of_lookup_2 _ 2%nat). done.
Qed.

Lemma create_transfer_account_not_found_witness :
  ∃ l,
    call (create_transfer "uuid" (transfer "Z" "Y" 100 "T1")) two_accounts []
    = (Raise (HTTPException 404 (Text "Account Y not found")),
       two_accounts, l)
    ∧ commits_of l = []
    ∧ RolledBack ∈ l.
Proof.
  apply (create_transfer_account_not_found
           "uuid" (transfer "Z" "Y" 100 "T1") two_accounts "Y" "Z").
  - discriminate.
  - reflexivity.
  - reflexivity.
  - left. reflexivity.
Defined.



(** X9. An empty [transaction_id] is no idempotency key: it is replaced by
    the generated id, like an absent one.  The record of a transfer
    requested with the empty id is stored under the generated id, and the
    same body sent again, for which another id is generated, is carried
    out again. *)
Theorem empty_transaction_id_is_regenerated
    (uuid1 uuid2 from to : string) (amount : Decimal)
    (description : option string) (db : DB) (a_from a_to : Account.t) :
  let body :=
    TransferRequest.mk from to amount description (Some EmptyString) in
  let db1 := (call (create_transfer uuid1 body) db []).1.2 in
  let db2 := (call (create_transfer uuid2 body) db1 []).1.2 in
  from ≠ to →
  accounts db !! from = Some a_from →
  accounts db !! to = Some a_to →
  uuid1 ≠ uuid2 →
  has_transaction uuid1 db = false →
  has_transaction uuid2 db = false →
  amount ≤ Account.balance a_from →
  amount ≤ Account.balance a_from - amount →
  transactions db2
  = transactions db
    ++ [Transaction.mk uuid1 from to amount COMPLETED description;
        Transaction.mk uuid2 from to amount COMPLETED description]
  ∧ accounts db2 !! from
    = Some (Account.with_balance a_from
              (Account.balance a_from - amount - amount))
  ∧ accounts db2 !! to
    = Some (Account.with_balance a_to
              (Account.balance a_to + amount + amount)).
Proof.
  intros body db1 db2 Hne Hfrom Hto Hu H1 H2 Hle1 Hle2. subst db2 db1.
  rewrite (create_transfer_completed uuid1 body db a_from a_to) by done.
  cbn [fst snd].
  rewrite (create_transfer_completed uuid2 body _
             (Account.with_balance a_from (Account.balance a_from - amount))
             (Account.with_balance a_to (Account.balance a_to + amount))).
  - cbn [fst snd accounts transactions]. split; [by rewrite <- app_assoc|].
    split.
    + by rewrite lookup_insert_ne, lookup_insert_eq.
    + by rewrite lookup_insert_eq.
  - done.
  - rewrite has_transaction_snoc. subst body.
    cbn [TransferRequest.transaction_id or_else Transaction_of
         Transaction.transaction_id].
    by rewrite H2, bool_decide_eq_false_2.
  - cbn [accounts]. by rewrite lookup_insert_ne, lookup_insert_eq.
  - cbn [accounts]. by rewrite lookup_insert_eq.
  - done.
Qed.

Lemma empty_transaction_id_is_regenerated_witness :
  transactions
    (call (create_transfer "u2"
             (TransferRequest.mk "A" "B" 100 None (Some EmptyString)))
          (call (create_transfer "u1"
                   (TransferRequest.mk "A" "B" 100 None (Some EmptyString)))
                two_accounts []).1.2 []).1.2
  = [Transaction.mk "u1" "A" "B" 100 COMPLETED None;
     Transaction.mk "u2" "A" "B" 100 COMPLETED None].
Proof.
  apply (empty_transaction_id_is_regenerated
           "u1" "u2" "A" "B" 100 None two_accounts
           (Account.mk "A" "Alice" 100000) (Account.mk "B" "Bob" 50000)).
  - discriminate.
  - reflexivity.
  - reflexivity.
  - discriminate.
  - reflexivity.
  - reflexivity.
  - cbn. lia.
  - cbn. lia.
Defined.

(** X10. The sign of the amount is checked by the request schema only.  The
    handler compares the balance with the amount and nothing else: run on a
    request with a negative amount it completes whenever the source balance
    is not below that amount, and the destination pays, down to a negative
    balance if need be.  The endpoint refuses such a body before the handler
    runs and leaves the store as it was. *)
Theorem amount_sign_is_checked_by_the_schema_only
    (uuid4 : string) (transfer_data : TransferRequest.t) (db : DB)
    (a_from a_to : Account.t) :
  let from := TransferRequest.from_account_id transfer_data in
  let to := TransferRequest.to_account_id transfer_data in
  let amount := TransferRequest.amount transfer_data in
  let tid := or_else (TransferRequest.transaction_id transfer_data) uuid4 in
  let db' := (call (create_transfer uuid4 transfer_data) db []).1.2 in
  amount < 0 →
  from ≠ to →
  accounts db !! from = Some a_from →
  accounts db !! to = Some a_to →
  has_transaction tid db = false →
  0 ≤ Account.balance a_from →
  (call (create_transfer uuid4 transfer_data) db []).1.1
  = Return (Transaction_of transfer_data tid COMPLETED)
  ∧ accounts db' !! to
    = Some (Account.with_balance a_to (Account.balance a_to + amount))
  ∧ Account.balance a_to + amount < Account.balance a_to
  ∧ serve (POST_transfers transfer_data uuid4) db
    = (RequestValidationError, db).
Proof.
  intros from to amount tid db' Hneg Hne Hfrom Hto Hfresh Hpos. subst db'.
  rewrite (create_transfer_completed _ _ _ a_from a_to) by (done || lia).
  cbn [fst snd accounts]. split; [done|].
  split; [by rewrite lookup_insert_eq|]. split; [lia|].
  cbn [serve]. unfold TransferRequest_validate.
  destruct (Z.ltb_spec 0 (TransferRequest.amount transfer_data)) as [|_];
    [unfold amount in Hneg; lia|].
  by rewrite !andb_false_r.
Qed.

Lemma amount_sign_is_checked_by_the_schema_only_witness :
  accounts (call (create_transfer "uuid" (transfer "A" "B" (-1) "T1"))
                 poor_and_empty []).1.2 !! "B"
  = Some (Account.mk "B" "Bob" (-1)).
Proof.
  apply (amount_sign_is_checked_by_the_schema_only
           "uuid" (transfer "A" "B" (-1) "T1") poor_and_empty
           (Account.mk "A" "Alice" 10000) (Account.mk "B" "Bob" 0)).
  - cbn. lia.
  - discriminate.
  - reflexivity.
  - reflexivity.
  - reflexivity.
  - cbn. lia.
Defined.

(** X11. Creating an account with balance 0 and deleting it gives back the
    store from before: when the id was free and no stored transaction
    names it, [delete_account] succeeds on the account just created and
    the store is exactly the one before the creation. *)
Theorem delete_account_undoes_create_account
    (account_data : AccountCreate.t) (db : DB) :
  let aid := AccountCreate.account_id account_data in
  let db1 := (call (create_account account_data) db []).1.2 in
  accounts db !! aid = None →
  AccountCreate.initial_balance account_data = 0 →
  unreferenced aid db →
  (call (delete_account aid) db1 []).1.1 = Return tt
  ∧ (call (delete_account aid) db1 []).1.2 = db.
Proof.
  intros aid db1 Hfree Hzero Hunref. subst db1.
  rewrite create_account_created by (done || lia). cbn [fst snd].
  erewrite delete_account_deleted.
  - cbn [fst snd accounts transactions]. split; [done|].
    rewrite delete_insert_eq, delete_id by done. by destruct db.
  - cbn [accounts]. apply lookup_insert_eq.
  - done.
  - done.
Qed.

Lemma delete_account_undoes_create_account_witness :
  (call (delete_account "C")
        (call (create_account (AccountCreate.mk "C" "Carol" 0))
              two_accounts []).1.2 []).1.2
  = two_accounts.
Proof.
  apply (delete_account_undoes_create_account
           (AccountCreate.mk "C" "Carol" 0) two_accounts).
  - reflexivity.
  - reflexivity.
  - reflexivity.
Defined.

(** * Invariants of the reachable stores *)

Lemma serve_request_step q db : request_step db (serve q db).2.
Proof.
  destruct q as [aid owner bal|aid|aid|body uuid4]; cbn [serve].
  - destruct (AccountCreate_validate aid owner bal) as [account_data|] eqn:Hv;
      [|constructor].
    destruct (create_account_cases account_data db)
      as [(e & l & ->)|(Hfresh & Hpos & l & ->)]; cbn [snd]; [constructor|].
    by apply (request_account_created db (Account.mk _ _ _)).
  - destruct (get_account_cases aid db) as (r & l & ->). constructor.
  - destruct (delete_account_cases aid db)
      as [(e & l & ->)|(a & l & Ha & Hz & Hr & ->)]; cbn [snd]; [constructor|].
    by eapply request_account_deleted.
  - destruct (TransferRequest_validate body) as [transfer_data|] eqn:Hv;
      [|constructor].
    apply TransferRequest_validate_Some in Hv as [-> Hpos].
    destruct (create_transfer_cases uuid4 body db)
      as [(e & l & ->)|[(a_from & a_to & l & Hne & Hfresh & Hfrom & Hto & Hlt
                         & ->)
                       |(a_from & a_to & l & Hne & Hfresh & Hfrom & Hto & Hle
                         & ->)]];
      cbn [snd]; [constructor| |].
    + by apply (request_transfer_failed db (Transaction_of _ _ FAILED)
                                        a_from a_to).
    + by apply (request_transfer_completed db (Transaction_of _ _ COMPLETED)
                                           a_from a_to).
Qed.

Lemma serve_all_cons q qs db :
  serve_all (q :: qs) db = serve_all qs (serve q db).2.
Proof. reflexivity. Qed.

(** A property of the store that every request keeps holds after any
    sequence of requests. *)
Lemma serve_all_preserves (P : DB → Prop) :
  (∀ db db', request_step db db' → P db → P db') →
  ∀ qs db, P db → P (serve_all qs db).
Proof.
  intros Hstep qs. induction qs as [|q qs IH]; intros db HP; [done|].
  rewrite serve_all_cons. apply IH. eapply Hstep; [apply serve_request_step|].
  done.
Qed.

Lemma request_step_transactions db db' :
  request_step db db' →
  transactions db' = transactions db
  ∨ ∃ x, transactions db' = transactions db ++ [x]
         ∧ has_transaction (Transaction.transaction_id x) db = false
         ∧ well_formed_record x
         ∧ is_Some (accounts db !! Transaction.from_account_id x)
         ∧ is_Some (accounts db !! Transaction.to_account_id x).
Proof.
  intros Hstep.
  destruct Hstep as [|a Hfresh Hpos|aid a Ha Hz Hr
                    |x a_from a_to Hst Hfr Hne Hfrom Hto Hpos Hlt
                    |x a_from a_to Hst Hfr Hne Hfrom Hto Hamount];
    cbn [transactions]; auto.
  - right. exists x. repeat split; try done; [by right|by eexists..].
  - right. exists x. repeat split; try done; [lia|by left|by eexists..].
Qed.

(** The accounts that a request leaves in the store: those from before,
    but for the one it deletes. *)
Lemma request_step_accounts db db' aid :
  request_step db db' →
  is_Some (accounts db !! aid) →
  is_Some (accounts db' !! aid)
  ∨ (unreferenced aid db ∧ transactions db' = transactions db).
Proof.
  intros Hstep Haid.
  destruct Hstep as [|a Hfresh Hpos|aid' a Ha Hz Hr
                    |x a_from a_to Hst Hfr Hne Hfrom Hto Hpos Hlt
                    |x a_from a_to Hst Hfr Hne Hfrom Hto Hamount];
    cbn [accounts transactions]; auto.
  - left. rewrite lookup_insert. by case_decide.
  - destruct (decide (aid' = aid)) as [->|Hd]; [by right|].
    left. by rewrite lookup_delete_ne.
  - left. rewrite !lookup_insert. by repeat case_decide.
Qed.

Lemma has_transaction_false tid db :
  has_transaction tid db = false ↔
  tid ∉ Transaction.transaction_id <$> transactions db.
Proof.
  unfold has_transaction.
  induction (transactions db) as [|x l IH]; cbn.
  - split; [intros _; apply not_elem_of_nil|done].
  - rewrite not_elem_of_cons, orb_false_iff, bool_decide_eq_false, IH.
    split; intros [H1 H2]; (split; [congruence|done]).
Qed.

Lemma unreferenced_spec aid db x :
  unreferenced aid db → x ∈ transactions db →
  Transaction.from_account_id x ≠ aid ∧ Transaction.to_account_id x ≠ aid.
Proof.
  unfold unreferenced. intros Hu Hx.
  induction Hx as [x l|x y l Hx IH]; cbn in Hu;
    apply orb_false_iff in Hu as [Hr Hl].
  - unfold references in Hr. apply orb_false_iff in Hr as [H1 H2].
    by apply bool_decide_eq_false in H1, H2.
  - by apply IH.
Qed.

(** X12. A transaction id identifies at most one stored record: in every
    store reached from the empty one through the interface, no two records
    have the same [transaction_id], and every request keeps it so. *)
Theorem transaction_ids_are_unique :
  (∀ qs, unique_transaction_ids (serve_all qs empty_db))
  ∧ (∀ q db, unique_transaction_ids db →
             unique_transaction_ids (serve q db).2).
Proof.
  assert (Hstep : ∀ db db', request_step db db' →
            unique_transaction_ids db → unique_transaction_ids db').
  { intros db db' Hs Hdb. unfold unique_transaction_ids in *.
    destruct (request_step_transactions _ _ Hs)
      as [->|(x & -> & Hfresh & _)]; [done|].
    rewrite fmap_app. apply NoDup_app. split; [done|]. split.
    - intros tid Hin1 Hin2. apply list_elem_of_singleton in Hin2 as ->.
      by apply has_transaction_false in Hfresh.
    - apply NoDup_singleton. }
  split.
  - intros qs. apply (serve_all_preserves _ Hstep). constructor.
  - intros q db. apply Hstep, serve_request_step.
Qed.

Lemma transaction_ids_are_unique_witness :
  unique_transaction_ids (serve_all history empty_db).
Proof. exact (proj1 transaction_ids_are_unique history). Defined.

(** X13. Referential integrity: in every store reached from the empty one
    through the interface, the source and the destination of every stored
    record are accounts of the store, and every request keeps it so. *)
Theorem stored_records_reference_accounts :
  (∀ qs, referential (serve_all qs empty_db))
  ∧ (∀ q db, referential db → referential (serve q db).2).
Proof.
  assert (Hstep : ∀ db db', request_step db db' →
            referential db → referential db').
  { intros db db' Hs Hdb x Hx.
    assert (Hold : ∀ y, y ∈ transactions db →
              is_Some (accounts db' !! Transaction.from_account_id y)
              ∧ is_Some (accounts db' !! Transaction.to_account_id y)).
    { intros y Hy. destruct (Hdb y Hy) as [Hf Ht].
      split.
      - destruct (request_step_accounts _ _ _ Hs Hf) as [|[Hu _]]; [done|].
        by destruct (unreferenced_spec _ _ _ Hu Hy).
      - destruct (request_step_accounts _ _ _ Hs Ht) as [|[Hu _]]; [done|].
        by destruct (unreferenced_spec _ _ _ Hu Hy). }
    destruct (request_step_transactions _ _ Hs)
      as [Heq|(z & Heq & _ & _ & Hf & Ht)]; rewrite Heq in Hx.
    - by apply Hold.
    - apply elem_of_app in Hx as [Hx|Hx]; [by apply Hold|].
      apply list_elem_of_singleton in Hx as ->.
      split.
      + destruct (request_step_accounts _ _ _ Hs Hf) as [|[_ Hsame]]; [done|].
        rewrite Heq in Hsame. apply (f_equal length) in Hsame.
        rewrite length_app in Hsame. cbn in Hsame. lia.
      + destruct (request_step_accounts _ _ _ Hs Ht) as [|[_ Hsame]]; [done|].
        rewrite Heq in Hsame. apply (f_equal length) in Hsame.
        rewrite length_app in Hsame. cbn in Hsame. lia. }
  split.
  - intros qs. apply (serve_all_preserves _ Hstep).
    intros x Hx. by apply elem_of_nil in Hx.
  - intros q db. apply Hstep, serve_request_step.
Qed.

Lemma stored_records_reference_accounts_witness :
  referential (serve_all history empty_db).
Proof. exact (proj1 stored_records_reference_accounts history). Defined.

(** X14. An account that a stored record names stays for good: if a record
    of the store has the account as source or destination and the account
    exists, then after any further requests the record is still stored and
    the account still exists; in particular no later [delete_account]
    removes it, whatever its balance. *)
Theorem referenced_account_is_never_deleted
    (x : Transaction.t) (aid : string) (db : DB) (qs : list Request) :
  x ∈ transactions db →
  references aid x = true →
  is_Some (accounts db !! aid) →
  x ∈ transactions (serve_all qs db)
  ∧ is_Some (accounts (serve_all qs db) !! aid).
Proof.
  intros Hx Href Haid.
  apply (serve_all_preserves
           (λ db', x ∈ transactions db' ∧ is_Some (accounts db' !! aid)));
    [|done].
  clear Hx Haid db. intros db db' Hs [Hx Haid].
  assert (Hx' : x ∈ transactions db').
  { destruct (request_step_transactions _ _ Hs) as [->|(z & -> & _)];
      [done|]. apply elem_of_app. by left. }
  split; [done|].
  destruct (request_step_accounts _ _ _ Hs Haid) as [|[Hu _]]; [done|].
  destruct (unreferenced_spec _ _ _ Hu Hx) as [H1 H2].
  unfold references in Href. apply orb_true_iff in Href as [Hr|Hr];
    by apply bool_decide_eq_true in Hr.
Qed.

Lemma referenced_account_is_never_deleted_witness :
  is_Some (accounts (serve_all [DELETE_account "A"; DELETE_account "A"]
                               after_history) !! "A").
Proof.
  apply (referenced_account_is_never_deleted
           (Transaction.mk "T1" "A" "B" 100 FAILED None) "A" after_history
           [DELETE_account "A"; DELETE_account "A"]).
  - apply (list_elem_of_lookup_2 _ 0%nat). reflexivity.
  - reflexivity.
  - by eexists.
Defined.

(** X15. Every account is stored under its own id: in every store reached
    from the empty one through the interface, the row found under a key has
    that key as [account_id], whatever was transferred since it was
    created; so the id reported by [get_account_balance] is the id asked
    for. *)
Theorem accounts_are_stored_under_their_id :
  (∀ qs, keyed (serve_all qs empty_db))
  ∧ (∀ q db, keyed db → keyed (serve q db).2)
  ∧ (∀ qs aid b,
        (call (get_account_balance aid) (serve_all qs empty_db) []).1.1
        = Return b →
        AccountBalance.account_id b = aid).
Proof.
  assert (Hstep : ∀ db db', request_step db db' → keyed db → keyed db').
  { intros db db' Hs Hdb.
    destruct Hs as [|a Hfresh Hpos|aid a Ha Hz Hr
                   |x a_from a_to Hst Hfr Hne Hfrom Hto Hpos Hlt
                   |x a_from a_to Hst Hfr Hne Hfrom Hto Hamount];
      try done; intros k b; cbn [accounts].
    - rewrite lookup_insert. case_decide; [|by apply Hdb]. by intros [= <-].
    - rewrite lookup_delete. case_decide; [done|by apply Hdb].
    - rewrite lookup_insert. case_decide.
      { intros [= <-]. cbn. subst k. by apply Hdb. }
      rewrite lookup_insert. case_decide; [|by apply Hdb].
      intros [= <-]. cbn. subst k. by apply Hdb. }
  assert (Hall : ∀ qs, keyed (serve_all qs empty_db)).
  { intros qs. apply (serve_all_preserves _ Hstep).
    intros k b. unfold empty_db; cbn [accounts]. by rewrite lookup_empty. }
  split; [done|]. split.
  - intros q db. apply Hstep, serve_request_step.
  - intros qs aid b.
    destruct (accounts (serve_all qs empty_db) !! aid) as [a|] eqn:Ha.
    + rewrite (get_account_balance_found _ _ a) by done. cbn [fst].
      intros [= <-]. cbn. by apply (Hall qs).
    + by rewrite get_account_balance_not_found.
Qed.

Lemma accounts_are_stored_under_their_id_witness :
  keyed (serve_all history empty_db).
Proof. exact (proj1 accounts_are_stored_under_their_id history). Defined.


(** ** Where the money comes from *)




(** * Listings *)

Lemma get_account_transfers_found aid skip limit db a :
  accounts db !! aid = Some a →
  call (get_account_transfers aid skip limit) db [] =
    (Return (take limit
               (drop skip
                  (reverse (List.filter (references aid)
                                        (transactions db))))),
     db, [SelectAccount aid]).
Proof.
  intros Ha. unfold call, get_account_transfers, SessionLocal. run.
  rewrite Ha. run. by rewrite run_query_transactions_all.
Qed.

Lemma get_account_transfers_not_found aid skip limit db :
  accounts db !! aid = None →
  call (get_account_transfers aid skip limit) db [] =
    (Raise (HTTPException HTTP_404_NOT_FOUND
              (Text ("Account " +:+ aid +:+ " not found"))),
     db, [SelectAccount aid]).
Proof.
  intros Ha. unfold call, get_account_transfers, SessionLocal. run.
  rewrite Ha. run. done.
Qed.

Lemma list_transfers_run skip limit db :
  call (list_transfers skip limit) db [] =
    (Return (take limit
               (drop skip (reverse (List.filter (λ _, true)
                                                (transactions db))))),
     db, []).
Proof. reflexivity. Qed.

Lemma references_spec aid x :
  references aid x = true ↔
  Transaction.from_account_id x = aid ∨ Transaction.to_account_id x = aid.
Proof.
  unfold references. rewrite orb_true_iff, !bool_decide_eq_true. done.
Qed.

Lemma elem_of_page {A} (x : A) skip limit l :
  x ∈ take limit (drop skip l) → x ∈ l.
Proof. intros Hx. by apply (subseteq_drop skip), (subseteq_take limit). Qed.

(** X18. The transfers of an account.  When the account does not exist the
    answer is not found, also when stored records name the id.  Otherwise
    the answer is a list of at most [limit] stored records, each of which
    has the account as source or as destination; and with [skip = 0] and a
    [limit] that the number of stored records does not exceed, every stored
    record that has the account as source or destination is in the list.
    The store is left as it was. *)
Theorem get_account_transfers_lists_the_records_of_the_account
    (aid : string) (skip limit : nat) (db : DB) :
  (call (get_account_transfers aid skip limit) db []).1.2 = db
  ∧ (accounts db !! aid = None →
     (call (get_account_transfers aid skip limit) db []).1.1
     = Raise (HTTPException HTTP_404_NOT_FOUND
                (Text ("Account " +:+ aid +:+ " not found"))))
  ∧ (is_Some (accounts db !! aid) →
     ∃ xs,
       (call (get_account_transfers aid skip limit) db []).1.1 = Return xs
       ∧ (length xs ≤ limit)%nat
       ∧ (∀ x, x ∈ xs →
               x ∈ transactions db
               ∧ (Transaction.from_account_id x = aid
                  ∨ Transaction.to_account_id x = aid))
       ∧ (skip = 0%nat → (length (transactions db) ≤ limit)%nat →
          ∀ x, x ∈ transactions db →
               Transaction.from_account_id x = aid
               ∨ Transaction.to_account_id x = aid →
               x ∈ xs)).
Proof.
  destruct (accounts db !! aid) as [a|] eqn:Ha.
  - rewrite (get_account_transfers_found _ _ _ _ a) by done. cbn [fst snd].
    split; [done|]. split; [done|]. intros _. eexists. split; [done|].
    split; [rewrite length_take; lia|]. split.
    + intros x Hx. apply elem_of_page in Hx. rewrite elem_of_reverse in Hx.
      apply list_elem_of_In, List.filter_In in Hx as [Hin Hr].
      split; [by apply list_elem_of_In|by apply references_spec].
    + intros -> Hlen x Hx Hparty. rewrite drop_0, take_ge.
      * rewrite elem_of_reverse. apply list_elem_of_In, List.filter_In.
        split; [by apply list_elem_of_In|by apply references_spec].
      * rewrite length_reverse.
        etrans; [apply List.filter_length_le|done].
  - rewrite get_account_transfers_not_found by done. cbn [fst snd].
    split; [done|]. split; [done|]. by intros [? ?].
Qed.

Lemma get_account_transfers_lists_the_records_of_the_account_witness :
  ∃ xs,
    (call (get_account_transfers "B" 0 100) after_T1 []).1.1 = Return xs
    ∧ (length xs ≤ 100)%nat.
Proof.
  destruct (proj2 (proj2
              (get_account_transfers_lists_the_records_of_the_account
                 "B" 0 100 after_T1)))
    as (xs & Hret & Hlen & _).
  - by eexists.
  - exists xs. split; [exact Hret|exact Hlen].
Defined.

(** X19. Most recent first.  Once [create_transfer] has stored its record,
    completed or failed, that record is the first one that [list_transfers]
    returns (for [skip = 0] and a positive [limit]), followed by the first
    records of the listing from before the transfer; and it is also the
    first of the transfers of its source and of its destination. *)
Theorem newest_record_is_listed_first
    (uuid4 : string) (transfer_data : TransferRequest.t) (db : DB)
    (a_from a_to : Account.t) (n : nat) :
  let from := TransferRequest.from_account_id transfer_data in
  let to := TransferRequest.to_account_id transfer_data in
  let amount := TransferRequest.amount transfer_data in
  let tid := or_else (TransferRequest.transaction_id transfer_data) uuid4 in
  let record :=
    Transaction_of transfer_data tid
      (if amount <=? Account.balance a_from then COMPLETED else FAILED) in
  let db' := (call (create_transfer uuid4 transfer_data) db []).1.2 in
  from ≠ to →
  accounts db !! from = Some a_from →
  accounts db !! to = Some a_to →
  has_transaction tid db = false →
  ∀ before before_from before_to,
    (call (list_transfers 0 n) db []).1.1 = Return before →
    (call (get_account_transfers from 0 n) db []).1.1 = Return before_from →
    (call (get_account_transfers to 0 n) db []).1.1 = Return before_to →
    (call (list_transfers 0 (S n)) db' []).1.1 = Return (record :: before)
    ∧ (call (get_account_transfers from 0 (S n)) db' []).1.1
      = Return (record :: before_from)
    ∧ (call (get_account_transfers to 0 (S n)) db' []).1.1
      = Return (record :: before_to).
Proof.
  intros from to amount tid record db' Hne Hfrom Hto Hfresh
         before before_from before_to.
  rewrite list_transfers_run, (get_account_transfers_found _ _ _ _ a_from),
    (get_account_transfers_found _ _ _ _ a_to) by done.
  cbn [fst]. intros [= <-] [= <-] [= <-].
  assert (Hrec_from : references from record = true).
  { apply references_spec. by left. }
  assert (Hrec_to : references to record = true).
  { apply references_spec. by right. }
  assert (Hdb' : transactions db' = transactions db ++ [record]
                 ∧ is_Some (accounts db' !! from)
                 ∧ is_Some (accounts db' !! to)).
  { subst db' record.
    destruct (Z.leb_spec amount (Account.balance a_from)) as [Hle|Hlt].
    - rewrite (create_transfer_completed _ _ _ a_from a_to) by done.
      cbn [fst snd accounts transactions]. split; [done|].
      fold from to. rewrite lookup_insert_ne, !lookup_insert_eq by done.
      by split; eexists.
    - rewrite (create_transfer_insufficient _ _ _ a_from a_to) by done.
      cbn [fst snd accounts transactions]. split; [done|].
      fold from to. rewrite Hfrom, Hto. by split; eexists. }
  destruct Hdb' as (Ht & [b_from Hbf] & [b_to Hbt]).
  rewrite list_transfers_run, (get_account_transfers_found _ _ _ _ b_from),
    (get_account_transfers_found _ _ _ _ b_to) by done.
  cbn [fst]. rewrite Ht, !List.filter_app. cbn [List.filter].
  rewrite Hrec_from, Hrec_to, !reverse_snoc. done.
Qed.

Lemma newest_record_is_listed_first_witness :
  (call (list_transfers 0 3)
        (call (create_transfer "uuid" (transfer "B" "A" 100 "T2"))
              after_T1 []).1.2 []).1.1
  = Return [Transaction.mk "T2" "B" "A" 100 COMPLETED None;
            Transaction.mk "T1" "A" "B" 25000 COMPLETED None].
Proof.
  apply (newest_record_is_listed_first
           "uuid" (transfer "B" "A" 100 "T2") after_T1
           (Account.mk "B" "Bob" 75000) (Account.mk "A" "Alice" 75000) 2
           ltac:(discriminate) eq_refl eq_refl eq_refl
           _ _ _ eq_refl eq_refl eq_refl).
Defined.

(** X20. Pages join: for the listing of all transfers and for the transfers
    of an account, a page of [limit] records from [skip] followed by the
    page of [limit'] records from [skip + limit] is the page of
    [limit + limit'] records from [skip]; nothing is lost or repeated
    between consecutive pages of an unchanged store. *)
Theorem consecutive_pages_join (skip limit limit' : nat) (db : DB) :
  (∀ xs ys zs,
      (call (list_transfers skip limit) db []).1.1 = Return xs →
      (call (list_transfers (skip + limit) limit') db []).1.1 = Return ys →
      (call (list_transfers skip (limit + limit')) db []).1.1 = Return zs →
      zs = xs ++ ys)
  ∧ (∀ aid xs ys zs,
        (call (get_account_transfers aid skip limit) db []).1.1 = Return xs →
        (call (get_account_transfers aid (skip + limit) limit') db []).1.1
        = Return ys →
        (call (get_account_transfers aid skip (limit + limit')) db []).1.1
        = Return zs →
        zs = xs ++ ys).
Proof.
  split.
  - intros xs ys zs. rewrite !list_transfers_run. cbn [fst].
    intros [= <-] [= <-] [= <-].
    by rewrite <- drop_drop, take_take_drop.
  - intros aid xs ys zs.
    destruct (accounts db !! aid) as [a|] eqn:Ha.
    + rewrite !(get_account_transfers_found _ _ _ _ a) by done. cbn [fst].
      intros [= <-] [= <-] [= <-].
      by rewrite <- drop_drop, take_take_drop.
    + by rewrite !get_account_transfers_not_found.
Qed.

Lemma consecutive_pages_join_witness :
  [Transaction.mk "T1" "A" "B" 25000 COMPLETED None]
  = [] ++ [Transaction.mk "T1" "A" "B" 25000 COMPLETED None].
Proof.
  apply (proj1 (consecutive_pages_join 0 0 1 after_T1)); reflexivity.
Defined.

(** X21. The listing of accounts returns at most [limit] rows, each of
    which is an account of the store; with [skip = 0] and a [limit] that
    the number of accounts does not exceed, every account of the store is
    returned.  The store is left as it was. *)
Theorem list_accounts_lists_stored_accounts (skip limit : nat) (db : DB) :
  ∃ rows,
    call (list_accounts skip limit) db [] = (Return rows, db, [])
    ∧ (length rows ≤ limit)%nat
    ∧ (∀ a, a ∈ rows → ∃ aid, accounts db !! aid = Some a)
    ∧ (skip = 0%nat → (size (accounts db) ≤ limit)%nat →
       ∀ aid a, accounts db !! aid = Some a → a ∈ rows).
Proof.
  eexists. split; [reflexivity|]. split; [rewrite length_take; lia|]. split.
  - intros a Ha. apply elem_of_page, list_elem_of_fmap in Ha
      as ([aid a'] & -> & Hin).
    exists aid. by apply elem_of_map_to_list.
  - intros -> Hsize aid a Ha. rewrite drop_0, take_ge.
    + apply list_elem_of_fmap. exists (aid, a). split; [done|].
      by apply elem_of_map_to_list.
    + by rewrite length_fmap, length_map_to_list.
Qed.

Lemma list_accounts_lists_stored_accounts_witness :
  ∃ rows,
    call (list_accounts 0 100) two_accounts [] = (Return rows, two_accounts, [])
    ∧ (length rows ≤ 100)%nat.
Proof.
  destruct (list_accounts_lists_stored_accounts 0 100 two_accounts)
    as (rows & Hcall & Hlen & _).
  exists rows. split; [exact Hcall|exact Hlen].
Defined.

(** * The sort behind the lock order *)

Lemma ascending_insert_sorted x l :
  ascending l = true → ascending (insert_sorted x l) = true.
Proof.
  induction l as [|y l IH]; [done|]. intros Hl. cbn [insert_sorted].
  destruct (String.ltb y x) eqn:Hyx.
  - assert (Hl' : ascending l = true).
    { destruct l; [done|]. cbn in Hl. by apply andb_true_iff in Hl as [_ ?]. }
    specialize (IH Hl'). destruct l as [|z l].
    + cbn. by rewrite (ltb_leb _ _ Hyx).
    + cbn [insert_sorted] in *. cbn in Hl. apply andb_true_iff in Hl as [Hyz _].
      destruct (String.ltb z x); cbn [ascending].
      * by rewrite Hyz.
      * by rewrite (ltb_leb _ _ Hyx).
  - change (String.leb x y && ascending (y :: l) = true).
    by rewrite (ltb_false_leb _ _ Hyx), Hl.
Qed.

Lemma insert_sorted_perm x l : insert_sorted x l ≡ₚ x :: l.
Proof.
  induction l as [|y l IH]; [done|]. cbn.
  destruct (String.ltb y x); [|done]. rewrite IH. apply Permutation_swap.
Qed.

Lemma leb_not_ltb (x y : string) :
  String.leb x y = true → String.ltb y x = false.
Proof.
  unfold String.leb, String.ltb. rewrite (String.compare_antisym x y).
  by destruct (String.compare y x).
Qed.

(** X22. The model of [sorted] sorts: for every list of strings the result
    is a rearrangement of the list that is ascending in the lexicographic
    order, and a list that is ascending already is returned as it is. *)
Theorem sorted_sorts (l : list string) :
  sorted l ≡ₚ l
  ∧ ascending (sorted l) = true
  ∧ (ascending l = true → sorted l = l).
Proof.
  split; [|split].
  - induction l as [|x l IH]; [done|].
    change (sorted (x :: l)) with (insert_sorted x (sorted l)).
    by rewrite insert_sorted_perm, IH.
  - induction l as [|x l IH]; [done|].
    change (sorted (x :: l)) with (insert_sorted x (sorted l)).
    by apply ascending_insert_sorted.
  - induction l as [|x l IH]; [done|]. intros Hl.
    change (sorted (x :: l)) with (insert_sorted x (sorted l)).
    destruct l as [|y l]; [done|].
    cbn in Hl. apply andb_true_iff in Hl as [Hxy Hl].
    rewrite IH by done. cbn [insert_sorted].
    by rewrite (leb_not_ltb _ _ Hxy).
Qed.

Lemma sorted_sorts_witness :
  sorted ["ACC001"; "ACC002"; "ACC010"] = ["ACC001"; "ACC002"; "ACC010"].
Proof.
  apply (proj2 (proj2 (sorted_sorts ["ACC001"; "ACC002"; "ACC010"]))).
  reflexivity.
Defined.

(** * What the endpoints never do *)

(** X23. The read endpoints write nothing: under every schedule of
    concurrent commits the log of [get_account], [get_account_balance],
    [get_transfer], [get_account_transfers], [list_transfers] and
    [list_accounts] has no commit of theirs, and served alone they leave
    the store as it was. *)
Theorem read_endpoints_write_nothing
    (aid tid : string) (skip limit : nat) (db : DB) (os : list (DB → DB)) :
  (commits_of (call (get_account aid) db os).2 = []
   ∧ commits_of (call (get_account_balance aid) db os).2 = []
   ∧ commits_of (call (get_transfer tid) db os).2 = []
   ∧ commits_of (call (get_account_transfers aid skip limit) db os).2 = []
   ∧ commits_of (call (list_transfers skip limit) db os).2 = []
   ∧ commits_of (call (list_accounts skip limit) db os).2 = [])
  ∧ ((call (get_account aid) db []).1.2 = db
     ∧ (call (get_account_balance aid) db []).1.2 = db
     ∧ (call (get_transfer tid) db []).1.2 = db
     ∧ (call (get_account_transfers aid skip limit) db []).1.2 = db
     ∧ (call (list_transfers skip limit) db []).1.2 = db
     ∧ (call (list_accounts skip limit) db []).1.2 = db).
Proof.
  split.
  - repeat split;
      unfold call, get_account, get_account_balance, get_transfer,
        get_account_transfers, list_transfers, list_accounts,
        query_transactions_all, query_accounts_all, SessionLocal;
      unfold_ops; explore; done.
  - destruct (get_account_cases aid db) as (r & l & ->).
    split; [done|]. split.
    { destruct (accounts db !! aid) as [a|] eqn:Ha.
      - by rewrite (get_account_balance_found _ _ a).
      - by rewrite get_account_balance_not_found. }
    split.
    { destruct (has_transaction tid db) eqn:Ht.
      - destruct (find_Some_has_transaction _ _ Ht) as [x Hx].
        by rewrite (get_transfer_found _ _ x).
      - by rewrite get_transfer_not_found. }
    split; [|done].
    destruct (accounts db !! aid) as [a|] eqn:Ha.
    + by rewrite (get_account_transfers_found _ _ _ _ a).
    + by rewrite get_account_transfers_not_found.
Qed.

(** * The unit of work of a transfer, under any schedule *)




(** X25. The units of work of the account endpoints, under every schedule
    of concurrent commits: [create_account] commits at most once, and what
    it commits is the insertion of the one account of the request, whose
    balance is not negative, with no row updated or deleted;
    [delete_account] commits at most once, and what it commits is the
    deletion of the row of the requested id and nothing else. *)
Theorem account_endpoints_unit_of_work
    (account_data : AccountCreate.t) (aid : string) (db : DB)
    (os : list (DB → DB)) :
  (commits_of (call (create_account account_data) db os).2 = []
   ∨ (commits_of (call (create_account account_data) db os).2
      = [Committed
           [AccountRow
              (Account.mk (AccountCreate.account_id account_data)
                          (AccountCreate.owner_name account_data)
                          (AccountCreate.initial_balance account_data))]
           [] []]
      ∧ 0 ≤ AccountCreate.initial_balance account_data))
  ∧ (commits_of (call (delete_account aid) db os).2 = []
     ∨ commits_of (call (delete_account aid) db os).2
       = [Committed [] [] [aid]]).
Proof.
  split.
  - destruct account_data as [id owner bal].
    unfold call, create_account, SessionLocal. projs.
    unfold_ops. explore.
    all: first [ by left
               | right; split; [done|];
                 match goal with H : (_ <? _) = false |- _ =>
                   by apply Z.ltb_ge in H end ].
  - unfold call, delete_account, SessionLocal.
    unfold_ops. explore.
    all: try destruct (negb _); projs; explore.
    all: first [ by left | by right ].
Qed.
